(** * Crawler-identity verification: a shallow embedding of
      [freedium-defense/countermeasures/platform/bot-verification.py]

    The module decides whether a request that claims, through its
    User-Agent header, to come from a search-engine crawler really
    originates from that crawler's infrastructure.  The embedding
    follows the Python source function by function:

    - Python [str] values are [string]s over the 8-bit alphabet of
      [ascii]; [str.lower] and [re.IGNORECASE] fold the letters A-Z;
    - exceptions are explicit: a computation returns [Ret v] or
      [Raise e], and every [try ... except] of the source is a match on
      the exception class;
    - the module-level dictionary [_ip_range_cache] is a [gmap] threaded
      through the calls, next to a log of the URLs handed to [urlopen];
    - the resolver, the HTTP endpoint and the clock are the fields of an
      environment record; one call of [is_verified_crawler] reads each
      of them at most once, so the record stands for what the call
      observes, and two calls may be given two records;
    - clock readings are binary64 floats, as [time.time()] returns them;
    - the [ipaddress] module is an interface, with an IPv4 instance to
      compute with;
    - calls to [log.debug] and [log.warning] have no effect on any
      value and are left out. *)

From Stdlib Require Import Strings.String Strings.Ascii ZArith Bool List.
From Stdlib Require Import Floats.PrimFloat.
From stdpp Require Import base option list gmap strings.

Import ListNotations.
Set Warnings "-register-all".
Local Open Scope string_scope.
Local Open Scope list_scope.

(** ** Exceptions and results *)

Module Py.

(** The exception classes that the module or the library calls it makes
    can raise.  [herror] and [gaierror] are subclasses of [OSError];
    [UnicodeError] is a subclass of [ValueError]. *)
Inductive exn : Type :=
  | OSError | herror | gaierror
  | ValueError | UnicodeError
  | TypeError | AttributeError.

(** [isinstance(e, OSError)] *)
Definition is_OSError (e : exn) : bool :=
  match e with
  | OSError | herror | gaierror => true
  | _ => false
  end.

Inductive Res (A : Type) : Type :=
  | Ret (v : A)
  | Raise (e : exn).
Arguments Ret {A} v.
Arguments Raise {A} e.

Definition bindR {A B} (r : Res A) (k : A -> Res B) : Res B :=
  match r with
  | Ret v => k v
  | Raise e => Raise e
  end.

(** *** Strings *)

Definition lower_char (c : ascii) : ascii :=
  let n := N_of_ascii c in
  if (65 <=? n)%N && (n <=? 90)%N then ascii_of_N (n + 32) else c.

(** [s.lower()] *)
Fixpoint lower (s : string) : string :=
  match s with
  | EmptyString => EmptyString
  | String c s' => String (lower_char c) (lower s')
  end.

(** [frag in s] on strings: substring containment. *)
Fixpoint str_in (frag s : string) : bool :=
  String.prefix frag s ||
  match s with
  | EmptyString => false
  | String _ s' => str_in frag s'
  end.

(** Truth value of a string: the empty string is false. *)
Definition str_truthy (s : string) : bool :=
  match s with
  | EmptyString => false
  | String _ _ => true
  end.

(** [x in l] on a list of strings. *)
Definition list_in (x : string) (l : list string) : bool :=
  existsb (String.eqb x) l.

(** A dictionary literal, in insertion order. *)
Definition dict (V : Type) : Type := list (string * V).

(** [d.get(k)]: [None] when the key is absent. *)
Fixpoint dict_get {V} (d : dict V) (k : string) : option V :=
  match d with
  | [] => None
  | (k', v) :: d' => if String.eqb k k' then Some v else dict_get d' k
  end.

End Py.
Import Py.

(** ** Module constants *)

(** User-Agent fragment to crawler key; iteration follows the order of
    the literal. *)
Definition UA_TO_CRAWLER_KEY : dict string :=
  [ ("googlebot", "googlebot");
    ("google-inspectiontool", "googlebot");
    ("google-read-aloud", "googlebot");
    ("mediapartners-google", "googlebot");
    ("bingbot", "bingbot");
    ("msnbot", "bingbot");
    ("applebot", "applebot");
    ("yandexbot", "yandexbot");
    ("yandex", "yandexbot");
    ("duckduckbot", "duckduckbot");
    ("baiduspider", "baiduspider") ].

(** URL of the published range list; the value of ["bingbot"] is
    Python's [None]. *)
Definition CRAWLER_IP_RANGE_SOURCES : dict (option string) :=
  [ ("googlebot",
     Some "https://developers.google.com/search/apis/ipranges/googlebot.json");
    ("google-special-crawlers",
     Some "https://developers.google.com/search/apis/ipranges/special-crawlers.json");
    ("bingbot", None) ].

(** ** extract_crawler_identity *)

(** The [for ... in UA_TO_CRAWLER_KEY.items()] loop with its early
    return. *)
Fixpoint first_fragment (items : dict string) (ua_lower : string)
  : option string :=
  match items with
  | [] => None
  | (ua_fragment, crawler_key) :: rest =>
      if str_in ua_fragment ua_lower then Some crawler_key
      else first_fragment rest ua_lower
  end.

Definition extract_crawler_identity (user_agent : string) : option string :=
  let ua_lower := lower user_agent in
  first_fragment UA_TO_CRAWLER_KEY ua_lower.

(** ** Regular expressions ([re.search] under [re.IGNORECASE]) *)

Module Re.

(** The fragment of the pattern language that [CRAWLER_RDNS_PATTERNS]
    uses: literal characters (an escaped dot is the character itself),
    concatenation, the alternation of a non-capturing group, and [$]. *)
Inductive regex : Type :=
  | Eps
  | Chr (c : ascii)
  | Cat (r1 r2 : regex)
  | Alt (r1 r2 : regex)
  | Eol.

(** A run of literal characters. *)
Fixpoint str (s : string) : regex :=
  match s with
  | EmptyString => Eps
  | String c s' => Cat (Chr c) (str s')
  end.

Definition newline : ascii := ascii_of_N 10.

(** [$] without [re.MULTILINE]: the end of the string, or the position
    just before a newline that ends the string. *)
Definition at_eol (s : string) : bool :=
  match s with
  | EmptyString => true
  | String c EmptyString => Ascii.eqb c newline
  | _ => false
  end.

(** Match [r] at the head of [s], then hand the rest to [k]. *)
Fixpoint matchk (r : regex) (s : string) (k : string -> bool) : bool :=
  match r with
  | Eps => k s
  | Chr c =>
      match s with
      | EmptyString => false
      | String d s' => Ascii.eqb (lower_char c) (lower_char d) && k s'
      end
  | Cat r1 r2 => matchk r1 s (fun s' => matchk r2 s' k)
  | Alt r1 r2 => matchk r1 s k || matchk r2 s k
  | Eol => at_eol s && k s
  end.

(** [re.search(r, s, re.IGNORECASE) is not None]: some position of [s],
    the end included, starts a match. *)
Fixpoint search (r : regex) (s : string) : bool :=
  matchk r s (fun _ => true) ||
  match s with
  | EmptyString => false
  | String _ s' => search r s'
  end.

End Re.
Import Re.

(** Crawler key to the suffix patterns its reverse-DNS name must match.
    Each entry is the pattern of the source, whose text is quoted. *)
Definition CRAWLER_RDNS_PATTERNS : dict (list regex) :=
  [ ("googlebot",
     [ Cat (str "googlebot.com") Eol;          (* googlebot\.com$ *)
       Cat (str "google.com") Eol ]);          (* google\.com$ *)
    ("bingbot",
     [ Cat (str "search.msn.com") Eol ]);      (* search\.msn\.com$ *)
    ("applebot",
     [ Cat (str "applebot.apple.com") Eol ]);  (* applebot\.apple\.com$ *)
    ("yandexbot",                              (* yandex\.(?:ru|net|com)$ *)
     [ Cat (str "yandex.")
         (Cat (Alt (str "ru") (Alt (str "net") (str "com"))) Eol) ]);
    ("duckduckbot",
     [ Cat (str "duckduckgo.com") Eol ]);      (* duckduckgo\.com$ *)
    ("baiduspider",                            (* crawl\.baidu\.(?:com|jp)$ *)
     [ Cat (str "crawl.baidu.")
         (Cat (Alt (str "com") (str "jp")) Eol) ]) ].

(** ** JSON values, as [json.loads] builds them *)

Module Json.

(** An object is the dictionary that [json.loads] returns: its keys are
    distinct and in insertion order. *)
Inductive value : Type :=
  | JNull
  | JBool (b : bool)
  | JInt (z : Z)
  | JFloat (f : float)
  | JStr (s : string)
  | JArr (items : list value)
  | JObj (members : list (string * value)).

(** [bool(v)] *)
Definition truthy (v : value) : bool :=
  match v with
  | JNull => false
  | JBool b => b
  | JInt z => negb (z =? 0)%Z
  | JFloat f => negb (PrimFloat.eqb f 0)
  | JStr s => str_truthy s
  | JArr items => match items with [] => false | _ => true end
  | JObj members => match members with [] => false | _ => true end
  end.

(** [v.get(k)] with the default [None]; only a dictionary has the
    method. *)
Definition get (v : value) (k : string) : Res value :=
  match v with
  | JObj members => Ret (default JNull (dict_get members k))
  | _ => Raise AttributeError
  end.

(** [v.get(k, d)] *)
Definition get_default (v : value) (k : string) (d : value) : Res value :=
  match v with
  | JObj members => Ret (default d (dict_get members k))
  | _ => Raise AttributeError
  end.

(** The items a [for] loop over [v] visits: the elements of a list, the
    keys of a dictionary, the characters of a string; anything else is
    not iterable. *)
Definition iterate (v : value) : Res (list value) :=
  match v with
  | JArr items => Ret items
  | JObj members => Ret (map (fun kv => JStr (fst kv)) members)
  | JStr s => Ret (map (fun c => JStr (String c EmptyString)) (list_ascii_of_string s))
  | _ => Raise TypeError
  end.

End Json.
Import Json.

(** ** The [ipaddress] module, as an interface

    [ip_address] and [ip_network] raise [ValueError], and nothing else,
    on an argument that does not denote an address or a network; that
    outcome is [None].  [ip_network] is the call with [strict=False],
    and takes whatever value the range list holds. *)
Module ipaddress.

Class Lib : Type := {
  address : Type;
  network : Type;
  ip_address : string -> option address;
  ip_network : value -> option network;
  contains : network -> address -> bool   (* [ip_obj in network] *)
}.

End ipaddress.

(** ** The world outside the module *)

(** What one call of [is_verified_crawler] can observe.  [resolve_ptr]
    and [resolve_addrs] are the resolver behind [socket.gethostbyaddr]
    (the host name of the answer) and [socket.getaddrinfo] (the address
    [r[4][0]] of every answer); [urlopen_json] is
    [json.loads(urlopen(url, timeout=10).read())]. *)
Record Env : Type := {
  time : float;
  resolve_ptr : string -> Res string;
  resolve_addrs : string -> Res (list string);
  urlopen_json : string -> Res value
}.

Module socket.

Definition is_ascii (s : string) : bool :=
  forallb (fun c => (N_of_ascii c <? 128)%N) (list_ascii_of_string s).

(** The check that the [idna] codec makes on an ASCII name: every label
    that a dot ends has between 1 and 63 characters, and the last label
    has at most 63.  [n] is the length of the label read so far. *)
Fixpoint labels_ok (s : string) (n : nat) : bool :=
  match s with
  | EmptyString => Nat.ltb n 64
  | String c s' =>
      if Ascii.eqb c "." then Nat.ltb 0 n && Nat.ltb n 64 && labels_ok s' 0
      else labels_ok s' (S n)
  end.

(** Both calls convert a [str] host argument with the [idna] codec
    before the resolver is asked; for an ASCII name that fails the check
    the conversion raises [UnicodeError]. *)
Definition idna_rejects (name : string) : bool :=
  is_ascii name && negb (labels_ok name 0).

Definition gethostbyaddr (E : Env) (ip : string) : Res string :=
  if idna_rejects ip then Raise UnicodeError else resolve_ptr E ip.

Definition getaddrinfo (E : Env) (host : string) : Res (list string) :=
  if idna_rejects host then Raise UnicodeError else resolve_addrs E host.

End socket.

(** ** Module state *)

(** Cache TTL for IP range lists: [4 * 3600] seconds. *)
Definition IP_RANGE_CACHE_TTL : float := 14400%float.

(** [_ip_range_cache], and the URLs [urlopen] was called with, oldest
    first. *)
Record State : Type := {
  _ip_range_cache : gmap string (list value * float);
  urlopen_calls : list string
}.

(** A computation that reads and updates the module state and may raise. *)
Definition M (A : Type) : Type := State -> Res A * State.

Definition ret {A} (v : A) : M A := fun st => (Ret v, st).

Definition bind {A B} (m : M A) (k : A -> M B) : M B :=
  fun st =>
    match m st with
    | (Ret v, st') => k v st'
    | (Raise e, st') => (Raise e, st')
    end.

Definition lift {A} (r : Res A) : M A := fun st => (r, st).

Notation "x <- m ;; k" := (bind m (fun x => k))
  (at level 100, m at next level, right associativity).
Notation "x <~ r ;; k" := (bindR r (fun x => k))
  (at level 100, r at next level, right associativity).

Record CrawlerVerificationResult : Type := {
  ip_address : string;
  user_agent : string;
  claimed_crawler : option string;
  rdns_hostname : option string;
  rdns_verified : bool;
  ip_range_verified : bool;
  is_legitimate : bool;
  reason : string
}.

(** ** reverse_dns_lookup, forward_dns_lookup, verify_rdns *)

(** [except (socket.herror, socket.gaierror, OSError)]: the three
    classes are [OSError] and two of its subclasses. *)
Definition reverse_dns_lookup (E : Env) (ip : string) : Res (option string) :=
  match socket.gethostbyaddr E ip with
  | Ret hostname => Ret (Some hostname)
  | Raise e => if is_OSError e then Ret None else Raise e
  end.

(** [list(set(...))] keeps one copy of every address. *)
Definition forward_dns_lookup (E : Env) (hostname : string) : Res (list string) :=
  match socket.getaddrinfo E hostname with
  | Ret results => Ret (remove_dups results)
  | Raise e => if is_OSError e then Ret [] else Raise e
  end.

(** [CRAWLER_RDNS_PATTERNS.get(crawler_key, [])] *)
Definition rdns_patterns (crawler_key : string) : list regex :=
  default [] (dict_get CRAWLER_RDNS_PATTERNS crawler_key).

(** [any(re.search(pattern, hostname, re.IGNORECASE) for pattern in patterns)] *)
Definition hostname_matches (patterns : list regex) (hostname : string) : bool :=
  existsb (fun pattern => search pattern hostname) patterns.

(** [bool(hostname)] for an optional string. *)
Definition opt_truthy (o : option string) : bool :=
  match o with
  | Some s => str_truthy s
  | None => false
  end.

Definition verify_rdns (E : Env) (ip crawler_key : string)
  : Res (bool * option string) :=
  hostname <~ reverse_dns_lookup E ip ;;
  match hostname with
  | Some h =>
      if negb (str_truthy h) then Ret (false, None)
      else
        let patterns := rdns_patterns crawler_key in
        if negb (hostname_matches patterns h) then Ret (false, Some h)
        else
          forward_ips <~ forward_dns_lookup E h ;;
          if list_in ip forward_ips then Ret (true, Some h)
          else Ret (false, Some h)
  | None => Ret (false, None)
  end.

(** ** fetch_ip_ranges *)

(** [now - cached_at < IP_RANGE_CACHE_TTL] *)
Definition within_ttl (now cached_at : float) : bool :=
  PrimFloat.ltb (PrimFloat.sub now cached_at) IP_RANGE_CACHE_TTL.

(** [CRAWLER_IP_RANGE_SOURCES.get(crawler_key)]: [None] for a key that
    is absent and for a key whose value is [None]. *)
Definition range_source (crawler_key : string) : option string :=
  match dict_get CRAWLER_IP_RANGE_SOURCES crawler_key with
  | Some source_url => source_url
  | None => None
  end.

(** The loop over the prefix entries; [ranges] is the list built so
    far. *)
Fixpoint collect_prefixes (entries ranges : list value) : Res (list value) :=
  match entries with
  | [] => Ret ranges
  | prefix_entry :: rest =>
      v4 <~ Json.get prefix_entry "ipv4Prefix" ;;
      cidr <~ (if truthy v4 then Ret v4 else Json.get prefix_entry "ipv6Prefix") ;;
      collect_prefixes rest (if truthy cidr then ranges ++ [cidr] else ranges)
  end.

(** The body of the [try]: download, decode, collect. *)
Definition download_ranges (E : Env) (source_url : string) : Res (list value) :=
  data <~ urlopen_json E source_url ;;
  prefixes <~ Json.get_default data "prefixes" (JArr []) ;;
  entries <~ Json.iterate prefixes ;;
  collect_prefixes entries [].

(** The test at the head of [fetch_ip_ranges]: the cached ranges when
    the key is in the cache and its entry is younger than the TTL. *)
Definition cached_ranges
    (now : float) (cache : gmap string (list value * float)) (crawler_key : string)
  : option (list value) :=
  match cache !! crawler_key with
  | Some (ranges, cached_at) =>
      if within_ttl now cached_at then Some ranges else None
  | None => None
  end.

(** [urlopen] is about to be called with [url]. *)
Definition record_call (url : string) (st : State) : State :=
  {| _ip_range_cache := _ip_range_cache st;
     urlopen_calls := urlopen_calls st ++ [url] |}.

(** [_ip_range_cache[crawler_key] = entry] *)
Definition store (crawler_key : string) (entry : list value * float) (st : State)
  : State :=
  {| _ip_range_cache := <[crawler_key := entry]> (_ip_range_cache st);
     urlopen_calls := urlopen_calls st |}.

Definition fetch_ip_ranges (E : Env) (crawler_key : string) : M (list value) :=
  fun st =>
    let now := time E in
    match cached_ranges now (_ip_range_cache st) crawler_key with
    | Some ranges => (Ret ranges, st)
    | None =>
        match range_source crawler_key with
        | Some source_url =>
            if negb (str_truthy source_url) then (Ret [], st)
            else
              let st1 := record_call source_url st in
              match download_ranges E source_url with
              | Ret ranges => (Ret ranges, store crawler_key (ranges, now) st1)
              | Raise _ => (Ret [], st1)          (* except Exception *)
              end
        | None => (Ret [], st)
        end
    end.

(** ** The verdict *)

(** The block "Determine final verdict" of [is_verified_crawler]: the
    pair [(is_legitimate, reason)] it assigns. *)
Definition final_verdict
    (require_both_checks : bool) (claimed_crawler : string)
    (rdns_verified ip_range_verified : bool) : bool * string :=
  if require_both_checks then
    let has_ip_ranges := opt_truthy (range_source claimed_crawler) in
    if has_ip_ranges then
      let is_legitimate := rdns_verified && ip_range_verified in
      (is_legitimate,
       if is_legitimate then "Verified via rDNS and IP range"
       else "Failed one or both verification checks")
    else
      (* Can only do rDNS for this crawler *)
      let is_legitimate := rdns_verified in
      (is_legitimate,
       if is_legitimate
       then "Verified via rDNS (no published IP ranges for " +:+ claimed_crawler +:+ ")"
       else "rDNS verification failed")
  else
    (rdns_verified || ip_range_verified,
     if rdns_verified && ip_range_verified then "Verified via rDNS and IP range"
     else if rdns_verified then "Verified via rDNS"
     else if ip_range_verified then "Verified via IP range"
     else "Impersonation detected: claims to be " +:+ claimed_crawler
            +:+ " but verification failed").

(** ** verify_ip_range *)

Section Verifier.
Context {L : ipaddress.Lib}.

(** The loop over the ranges: an entry that is not a network is passed
    over, the first network that holds the address ends the loop. *)
Fixpoint scan_ranges (ip_obj : ipaddress.address) (ranges : list value) : bool :=
  match ranges with
  | [] => false
  | cidr :: rest =>
      match ipaddress.ip_network cidr with
      | Some network =>
          if ipaddress.contains network ip_obj then true
          else scan_ranges ip_obj rest
      | None => scan_ranges ip_obj rest      (* except ValueError: continue *)
      end
  end.

Definition verify_ip_range (E : Env) (ip crawler_key : string) : M bool :=
  ranges <- fetch_ip_ranges E crawler_key ;;
  match ranges with
  | [] => ret false
  | _ =>
      match ipaddress.ip_address ip with
      | Some ip_obj => ret (scan_ranges ip_obj ranges)
      | None => ret false                    (* except ValueError *)
      end
  end.

(** ** is_verified_crawler *)

(** [if not claimed_crawler] holds of [None] and of the empty string. *)
Definition is_verified_crawler
    (E : Env) (ip_address user_agent : string) (require_both_checks : bool)
  : M CrawlerVerificationResult :=
  let claimed_crawler := extract_crawler_identity user_agent in
  match claimed_crawler with
  | Some key =>
      if negb (str_truthy key) then
        ret {| ip_address := ip_address;
               user_agent := user_agent;
               claimed_crawler := None;
               rdns_hostname := None;
               rdns_verified := false;
               ip_range_verified := false;
               is_legitimate := false;
               reason := "User-Agent does not claim to be a known search crawler" |}
      else
        (* Run rDNS verification *)
        rdns <- lift (verify_rdns E ip_address key) ;;
        (* Run IP range verification (where available) *)
        ip_range_verified <- verify_ip_range E ip_address key ;;
        let verdict := final_verdict require_both_checks key (fst rdns) ip_range_verified in
        ret {| ip_address := ip_address;
               user_agent := user_agent;
               claimed_crawler := claimed_crawler;
               rdns_hostname := snd rdns;
               rdns_verified := fst rdns;
               ip_range_verified := ip_range_verified;
               is_legitimate := fst verdict;
               reason := snd verdict |}
  | None =>
      ret {| ip_address := ip_address;
             user_agent := user_agent;
             claimed_crawler := None;
             rdns_hostname := None;
             rdns_verified := false;
             ip_range_verified := false;
             is_legitimate := false;
             reason := "User-Agent does not claim to be a known search crawler" |}
  end.

End Verifier.

(** ** An instance of the [ipaddress] interface: IPv4

    Dotted-quad addresses, networks written as an address and a decimal
    prefix length, and integers below [2^32].  The notations that the
    Python module accepts beyond these (a netmask after the slash, IPv6)
    are not networks of this instance. *)
Module Ipv4.

Definition digit (c : ascii) : option N :=
  let n := N_of_ascii c in
  if (48 <=? n)%N && (n <=? 57)%N then Some (n - 48)%N else None.

Fixpoint decimal (s : string) (acc : N) : option N :=
  match s with
  | EmptyString => Some acc
  | String c s' =>
      match digit c with
      | Some d => decimal s' (acc * 10 + d)%N
      | None => None
      end
  end.

(** [s.split(sep)] *)
Fixpoint split (sep : ascii) (s : string) : list string :=
  match s with
  | EmptyString => [EmptyString]
  | String c s' =>
      if Ascii.eqb c sep then EmptyString :: split sep s'
      else match split sep s' with
           | h :: t => String c h :: t
           | [] => [String c EmptyString]
           end
  end.

(** One to three digits, no leading zero before another digit, at most
    255. *)
Definition octet (s : string) : option N :=
  match s with
  | EmptyString => None
  | String c rest =>
      if Nat.ltb 3 (String.length s) then None
      else if Ascii.eqb c "0" && str_truthy rest then None
      else match decimal s 0 with
           | Some n => if (n <=? 255)%N then Some n else None
           | None => None
           end
  end.

Definition ip_address (s : string) : option N :=
  match split "." s with
  | [a; b; c; d] =>
      match octet a, octet b, octet c, octet d with
      | Some a, Some b, Some c, Some d =>
          Some (((a * 256 + b) * 256 + c) * 256 + d)%N
      | _, _, _, _ => None
      end
  | _ => None
  end.

Definition prefix_length (s : string) : option N :=
  match s with
  | EmptyString => None
  | _ => match decimal s 0 with
         | Some p => if (p <=? 32)%N then Some p else None
         | None => None
         end
  end.

Definition netmask (p : N) : N :=
  N.shiftl (N.ones p) (32 - p).

(** A network is its network address and its netmask; the host bits of
    the address are cleared, as [strict=False] does. *)
Definition make_network (a p : N) : N * N :=
  (N.land a (netmask p), netmask p).

Definition ip_network (v : value) : option (N * N) :=
  match v with
  | JStr s =>
      match split "/" s with
      | [a] => option_map (fun a => make_network a 32) (ip_address a)
      | [a; p] =>
          match ip_address a, prefix_length p with
          | Some a, Some p => Some (make_network a p)
          | _, _ => None
          end
      | _ => None
      end
  | JInt z =>
      if (0 <=? z)%Z && (z <? 2 ^ 32)%Z then Some (make_network (Z.to_N z) 32)
      else None
  | _ => None
  end.

Definition contains (net : N * N) (a : N) : bool :=
  (N.land a (snd net) =? fst net)%N.

Definition lib : ipaddress.Lib := {|
  ipaddress.address := N;
  ipaddress.network := N * N;
  ipaddress.ip_address := ip_address;
  ipaddress.ip_network := ip_network;
  ipaddress.contains := contains
|}.

End Ipv4.

(** ** Sample worlds *)

Module Sample.

Definition googlebot_ip : string := "66.249.66.1".
Definition googlebot_host : string := "crawl-66-249-66-1.googlebot.com".
Definition googlebot_ua : string :=
  "Mozilla/5.0 (compatible; Googlebot/2.1; +http://www.google.com/bot.html)".
Definition bingbot_ua : string :=
  "Mozilla/5.0 (compatible; bingbot/2.0; +http://www.bing.com/bingbot.htm)".
Definition chrome_ua : string :=
  "Mozilla/5.0 (Windows NT 10.0; Win64; x64) AppleWebKit/537.36 Chrome/121.0.0.0 Safari/537.36".
Definition googlebot_url : string :=
  "https://developers.google.com/search/apis/ipranges/googlebot.json".

(** A published range document with one entry that is not a network. *)
Definition published : value :=
  JObj [ ("creationTime", JStr "2024-01-01T00:00:00");
         ("prefixes",
          JArr [ JObj [("ipv6Prefix", JStr "2001:4860:4801:10::/64")];
                 JObj [("ipv4Prefix", JStr "not-a-network")];
                 JObj [("ipv4Prefix", JStr "66.249.64.0/19")] ]) ].

Definition published_ranges : list value :=
  [ JStr "2001:4860:4801:10::/64"; JStr "not-a-network"; JStr "66.249.64.0/19" ].

(** The resolver knows the crawler's address in both directions and
    nothing else; the endpoint serves [published]. *)
Definition honest (now : float) : Env := {|
  time := now;
  resolve_ptr := fun ip =>
    if String.eqb ip googlebot_ip then Ret googlebot_host else Raise herror;
  resolve_addrs := fun host =>
    if String.eqb host googlebot_host then Ret [googlebot_ip] else Raise gaierror;
  urlopen_json := fun _ => Ret published
|}.

(** The same resolver with the endpoint out of reach. *)
Definition offline (now : float) : Env := {|
  time := now;
  resolve_ptr := resolve_ptr (honest now);
  resolve_addrs := resolve_addrs (honest now);
  urlopen_json := fun _ => Raise OSError
|}.

(** A forged reverse record: the address of the impostor resolves to a
    crawler name, which resolves forward to the crawler's own address. *)
Definition forged_ip : string := "5.9.0.1".

Definition forged (now : float) : Env := {|
  time := now;
  resolve_ptr := fun _ => Ret googlebot_host;
  resolve_addrs := fun _ => Ret [googlebot_ip];
  urlopen_json := fun _ => Raise OSError
|}.

(** A crawler whose operator publishes no ranges. *)
Definition bingbot_ip : string := "157.55.39.1".
Definition bingbot_host : string := "msnbot-157-55-39-1.search.msn.com".

Definition bing (now : float) : Env := {|
  time := now;
  resolve_ptr := fun ip =>
    if String.eqb ip bingbot_ip then Ret bingbot_host else Raise herror;
  resolve_addrs := fun host =>
    if String.eqb host bingbot_host then Ret [bingbot_ip] else Raise gaierror;
  urlopen_json := fun _ => Raise OSError
|}.

Definition empty_state : State :=
  {| _ip_range_cache := ∅; urlopen_calls := [] |}.

(** The state after a fetch at time [0] that returned [ranges]. *)
Definition cached_state (ranges : list value) : State :=
  {| _ip_range_cache := {[ "googlebot" := (ranges, 0%float) ]};
     urlopen_calls := [googlebot_url] |}.

End Sample.

(** * The text watermark of [detection/content_fingerprint.py] and the
      file names of [legal/collect_evidence.py]

    These functions work on characters beyond the 8-bit alphabet, so a
    Python [str] is here the list of its code points. *)

Module Text.

Definition pystr : Type := list N.

(** The code points of an ASCII literal. *)
Definition of_string (s : string) : pystr :=
  map N_of_ascii (list_ascii_of_string s).

(** [s.startswith(p)] *)
Fixpoint is_prefix (p s : pystr) : bool :=
  match p, s with
  | [], _ => true
  | _ :: _, [] => false
  | a :: p', b :: s' => (a =? b)%N && is_prefix p' s'
  end.

(** [s.find(sub)]: the index of the first occurrence; [None] is [-1]. *)
Fixpoint find (sub s : pystr) : option nat :=
  if is_prefix sub s then Some 0%nat
  else match s with
       | [] => None
       | _ :: s' => option_map S (find sub s')
       end.

(** [s.split(sep)] for a separator of one character. *)
Fixpoint split (sep : N) (s : pystr) : list pystr :=
  match s with
  | [] => [[]]
  | c :: s' =>
      if (c =? sep)%N then [] :: split sep s'
      else match split sep s' with
           | h :: t => (c :: h) :: t
           | [] => [[c]]
           end
  end.

(** [s.replace(old, new)] for a non-empty [old]: the occurrences are
    taken from the left and do not overlap.  [skip] counts the
    characters of an occurrence that are still to be passed over. *)
Fixpoint replace_from (skip : nat) (old new s : pystr) : pystr :=
  match s with
  | [] => []
  | c :: s' =>
      match skip with
      | S k => replace_from k old new s'
      | O =>
          if is_prefix old s
          then new ++ replace_from (length old - 1) old new s'
          else c :: replace_from 0 old new s'
      end
  end.

Definition replace (old new s : pystr) : pystr := replace_from 0 old new s.

End Text.

Module Fingerprint.
Import Text.

Definition ZWS : N := 8203.         (* U+200B, binary 0 *)
Definition ZWNJ : N := 8204.        (* U+200C, binary 1 *)
Definition SEPARATOR : N := 8205.   (* U+200D *)

Definition zero : N := 48.          (* the character 0 *)
Definition one : N := 49.           (* the character 1 *)

(** The binary digits of a positive number, the highest first. *)
Fixpoint pos_digits (p : positive) : pystr :=
  match p with
  | xH => [one]
  | xO p' => pos_digits p' ++ [zero]
  | xI p' => pos_digits p' ++ [one]
  end.

(** [format(n, "08b")]: the binary digits, padded with zeros on the
    left to eight characters; a number above 255 takes more. *)
Definition format_08b (n : N) : pystr :=
  let digits := match n with N0 => [zero] | Npos p => pos_digits p end in
  repeat zero (8 - length digits) ++ digits.

(** [ord(c)] of a character is its code point. *)
Definition text_to_bits (text : pystr) : pystr :=
  flat_map format_08b text.

(** [[bits[i:i+8] for i in range(0, len(bits), 8)]]; [fuel] bounds the
    number of chunks. *)
Fixpoint chunks (fuel : nat) (bits : pystr) : list pystr :=
  match fuel with
  | O => []
  | S fuel' =>
      match bits with
      | [] => []
      | _ => firstn 8 bits :: chunks fuel' (skipn 8 bits)
      end
  end.

(** The value of a string of the characters 0 and 1; [None] when
    another character occurs. *)
Fixpoint binary_value (c : pystr) (acc : N) : option N :=
  match c with
  | [] => Some acc
  | d :: c' =>
      if (d =? zero)%N then binary_value c' (2 * acc)
      else if (d =? one)%N then binary_value c' (2 * acc + 1)
      else None
  end.

Section Decode.

(** [int(c, 2)] on a string that does not consist of the characters 0
    and 1 alone: a number for the other spellings that [int] accepts,
    [ValueError] for the rest. *)
Variable int2_other : pystr -> Res Z.

Definition int2 (c : pystr) : Res Z :=
  match c with
  | [] => int2_other c
  | _ => match binary_value c 0 with
         | Some n => Ret (Z.of_N n)
         | None => int2_other c
         end
  end.

(** [chr(n)] *)
Definition chr (n : Z) : Res N :=
  if (0 <=? n)%Z && (n <? 1114112)%Z then Ret (Z.to_N n) else Raise ValueError.

(** The characters of the chunks of length eight, in order; the first
    chunk that is no number ends the evaluation. *)
Fixpoint chars_of (cs : list pystr) : Res pystr :=
  match cs with
  | [] => Ret []
  | c :: rest =>
      if Nat.eqb (length c) 8 then
        n <~ int2 c ;;
        ch <~ chr n ;;
        text <~ chars_of rest ;;
        Ret (ch :: text)
      else chars_of rest
  end.

Definition bits_to_text (bits : pystr) : Res pystr :=
  chars_of (chunks (length bits) bits).

Definition decode_fingerprint (text : pystr) : option pystr :=
  if negb (existsb (N.eqb SEPARATOR) text) then None
  else
    let parts := split SEPARATOR text in
    if Nat.ltb (length parts) 3 then None
    else
      let encoded_bits := nth 1 parts [] in
      let bits :=
        flat_map (fun char =>
                    if (char =? ZWS)%N then [zero]
                    else if (char =? ZWNJ)%N then [one]
                    else [])
                 encoded_bits in
      match bits with
      | [] => None
      | _ => match bits_to_text bits with
             | Ret text' => Some text'
             | Raise _ => None              (* except Exception *)
             end
      end.

End Decode.

Definition encode_fingerprint (payload : pystr) : pystr :=
  let bits := text_to_bits payload in
  [SEPARATOR]
    ++ map (fun bit => if (bit =? zero)%N then ZWS else ZWNJ) bits
    ++ [SEPARATOR].

Definition inject_fingerprint (text fingerprint : pystr) : pystr :=
  let injection_point :=
    match find (of_string ". ") text with
    | Some i => Some i
    | None => find [10%N] text             (* the newline *)
    end in
  match injection_point with
  | None => fingerprint ++ text
  | Some i => firstn (i + 2) text ++ fingerprint ++ skipn (i + 2) text
  end.

Definition strip_zero_width (text : pystr) : pystr :=
  fold_left (fun text char => replace [char] [] text) [ZWS; ZWNJ; SEPARATOR] text.

End Fingerprint.

Module Evidence.
Import Text.

Definition safe_filename (url : pystr) : pystr :=
  firstn 80
    (replace (of_string ":") (of_string "_")
       (replace (of_string "/") (of_string "_")
          (replace (of_string "http://") []
             (replace (of_string "https://") [] url)))).

End Evidence.

(** ** Vocabulary of the statements *)

Module Vocab.

(** The pattern has no [$]. *)
Fixpoint eol_free (r : regex) : bool :=
  match r with
  | Eps | Chr _ => true
  | Cat r1 r2 | Alt r1 r2 => eol_free r1 && eol_free r2
  | Eol => false
  end.

(** The words that a pattern without [$] spells out. *)
Fixpoint words (r : regex) : list string :=
  match r with
  | Eps => [EmptyString]
  | Chr c => [String c EmptyString]
  | Cat r1 r2 => flat_map (fun w1 => map (String.append w1) (words r2)) (words r1)
  | Alt r1 r2 => words r1 ++ words r2
  | Eol => []
  end.

(** [hostname] ends, up to the case of letters, with [suffix], or with
    [suffix] and one newline. *)
Definition ends_with_ci (hostname suffix : string) : Prop :=
  exists before middle tail,
    hostname = before +:+ middle +:+ tail /\
    lower middle = suffix /\
    (tail = EmptyString \/ tail = String newline EmptyString).

(** The suffixes, in lower case, that the patterns of
    [CRAWLER_RDNS_PATTERNS] spell out for each crawler key. *)
Definition ACCEPTED_SUFFIXES : list (string * string) :=
  [ ("googlebot", "googlebot.com");
    ("googlebot", "google.com");
    ("bingbot", "search.msn.com");
    ("applebot", "applebot.apple.com");
    ("yandexbot", "yandex.ru");
    ("yandexbot", "yandex.net");
    ("yandexbot", "yandex.com");
    ("duckduckbot", "duckduckgo.com");
    ("baiduspider", "crawl.baidu.com");
    ("baiduspider", "crawl.baidu.jp") ].

(** Every key of the cache has a range source. *)
Definition cache_sourced (st : State) : Prop :=
  forall crawler_key entry,
    _ip_range_cache st !! crawler_key = Some entry ->
    opt_truthy (range_source crawler_key) = true.

(** The value is a dictionary. *)
Definition is_object (v : value) : bool :=
  match v with
  | JObj _ => true
  | _ => false
  end.

(** The character is 0 or 1. *)
Definition is_bit (c : N) : bool :=
  (c =? Fingerprint.zero)%N || (c =? Fingerprint.one)%N.

(** The character is one of the three invisible ones. *)
Definition is_zero_width (c : N) : bool :=
  (c =? Fingerprint.ZWS)%N || (c =? Fingerprint.ZWNJ)%N
  || (c =? Fingerprint.SEPARATOR)%N.

End Vocab.
Import Vocab.

(** * Properties *)

Section Examples.
Import Sample.
#[local] Existing Instance Ipv4.lib.

Example extract_googlebot :
  extract_crawler_identity
    "Mozilla/5.0 (compatible; Googlebot/2.1; +http://www.google.com/bot.html)"
  = Some "googlebot".
Proof. reflexivity. Qed.

Example extract_chrome :
  extract_crawler_identity
    "Mozilla/5.0 (Windows NT 10.0; Win64; x64) AppleWebKit/537.36 Chrome/121.0.0.0 Safari/537.36"
  = None.
Proof. reflexivity. Qed.

Example search_suffix :
  search (Cat (str "googlebot.com") Eol) "crawl-66-249-66-1.GoogleBot.com" = true.
Proof. reflexivity. Qed.

Example search_trailing_newline :
  search (Cat (str "google.com") Eol) (String.append "x.google.com" (String newline ""))
  = true.
Proof. reflexivity. Qed.

Example search_not_suffix :
  search (Cat (str "googlebot.com") Eol) "googlebot.com.evil.example" = false.
Proof. reflexivity. Qed.

Example search_alternation :
  search (Cat (str "yandex.") (Cat (Alt (str "ru") (Alt (str "net") (str "com"))) Eol))
         "spider-1.yandex.net" = true.
Proof. reflexivity. Qed.

Example download_published :
  download_ranges (honest 0) googlebot_url = Ret published_ranges.
Proof. reflexivity. Qed.

Example honest_googlebot :
  fst (is_verified_crawler (honest 0) googlebot_ip googlebot_ua false empty_state)
  = Ret {| ip_address := googlebot_ip;
           user_agent := googlebot_ua;
           claimed_crawler := Some "googlebot";
           rdns_hostname := Some googlebot_host;
           rdns_verified := true;
           ip_range_verified := true;
           is_legitimate := true;
           reason := "Verified via rDNS and IP range" |}.
Proof. vm_compute. reflexivity. Qed.

(** The second case of the module's [demo]: a crawler User-Agent from a
    data-centre address whose reverse record names its own host. *)
Example spoofed_googlebot :
  fst (is_verified_crawler
         {| time := 0;
            resolve_ptr := fun _ => Ret "static.1.0.9.5.clients.your-server.de";
            resolve_addrs := fun _ => Ret ["5.9.0.1"];
            urlopen_json := fun _ => Ret published |}
         "5.9.0.1" googlebot_ua false empty_state)
  = Ret {| ip_address := "5.9.0.1";
           user_agent := googlebot_ua;
           claimed_crawler := Some "googlebot";
           rdns_hostname := Some "static.1.0.9.5.clients.your-server.de";
           rdns_verified := false;
           ip_range_verified := false;
           is_legitimate := false;
           reason :=
             "Impersonation detected: claims to be googlebot but verification failed" |}.
Proof. vm_compute. reflexivity. Qed.

Example idna_empty_label : socket.idna_rejects "66.249..1" = true.
Proof. reflexivity. Qed.

Example idna_trailing_dot :
  socket.idna_rejects "crawl-66-249-66-1.googlebot.com." = false.
Proof. reflexivity. Qed.

Example idna_dotted_quad : socket.idna_rejects googlebot_ip = false.
Proof. reflexivity. Qed.

Example network_clears_host_bits :
  Ipv4.ip_network (JStr "66.249.66.1/19") = Ipv4.ip_network (JStr "66.249.64.0/19").
Proof. reflexivity. Qed.

Example network_rejects_prefix :
  Ipv4.ip_network (JStr "1.2.3.4/33") = None.
Proof. reflexivity. Qed.

(** A document whose [prefixes] is [null] cannot be iterated, and one
    whose entries are not dictionaries has no [get]: both fail the
    whole fetch. *)
Example download_prefixes_null :
  download_ranges
    {| time := 0; resolve_ptr := fun _ => Raise herror;
       resolve_addrs := fun _ => Raise gaierror;
       urlopen_json := fun _ => Ret (JObj [("prefixes", JNull)]) |}
    googlebot_url
  = Raise TypeError.
Proof. reflexivity. Qed.

Example download_entry_not_dict :
  download_ranges
    {| time := 0; resolve_ptr := fun _ => Raise herror;
       resolve_addrs := fun _ => Raise gaierror;
       urlopen_json := fun _ =>
         Ret (JObj [("prefixes", JArr [JObj [("ipv4Prefix", JStr "66.249.64.0/19")];
                                       JStr "66.249.64.0/19"])]) |}
    googlebot_url
  = Raise AttributeError.
Proof. reflexivity. Qed.

(** After the TTL the list is fetched again and stored under the new
    time. *)
Example refetch_after_expiry :
  fetch_ip_ranges (honest 14400) "googlebot" (cached_state [])
  = (Ret published_ranges,
     {| _ip_range_cache := {[ "googlebot" := (published_ranges, 14400%float) ]};
        urlopen_calls := [googlebot_url; googlebot_url] |}).
Proof. vm_compute. reflexivity. Qed.

End Examples.

(** ** Tables *)

Lemma dict_get_In {V} (d : dict V) (k : string) (v : V) :
  dict_get d k = Some v -> In (k, v) d.
Proof.
  induction d as [|[k' v'] d IH]; simpl; [discriminate|].
  destruct (String.eqb_spec k k') as [->|_].
  - intros [= ->]. now left.
  - intros H. right. auto.
Qed.

Lemma first_fragment_In (items : dict string) (ua_lower key : string) :
  first_fragment items ua_lower = Some key ->
  exists ua_fragment, In (ua_fragment, key) items.
Proof.
  induction items as [|[frag k] items IH]; simpl; [discriminate|].
  destruct (str_in frag ua_lower).
  - intros [= ->]. exists frag. now left.
  - intros H. destruct (IH H) as [f Hf]. exists f. now right.
Qed.

(** Every crawler key a User-Agent can classify to is one of the keys of
    the fragment table. *)
Lemma extract_crawler_identity_key (user_agent key : string) :
  extract_crawler_identity user_agent = Some key ->
  In key (map snd UA_TO_CRAWLER_KEY).
Proof.
  intros H. apply first_fragment_In in H as [frag Hin].
  change key with (snd (frag, key)). now apply in_map.
Qed.

(** A property that holds of every key of the fragment table holds of
    every classified identity; the table is checked by evaluation. *)
Lemma classified_forallb (P : string -> bool) (user_agent key : string) :
  forallb P (map snd UA_TO_CRAWLER_KEY) = true ->
  extract_crawler_identity user_agent = Some key ->
  P key = true.
Proof.
  intros Hall Hkey. rewrite forallb_forall in Hall.
  apply Hall. now apply extract_crawler_identity_key with user_agent.
Qed.

Lemma classified_truthy (user_agent key : string) :
  extract_crawler_identity user_agent = Some key -> str_truthy key = true.
Proof. apply classified_forallb. reflexivity. Qed.

(** Among the classified identities only ["googlebot"] has a range
    source. *)
Lemma classified_range_source (user_agent key : string) :
  extract_crawler_identity user_agent = Some key ->
  opt_truthy (range_source key) = String.eqb key "googlebot".
Proof.
  intros H.
  apply (classified_forallb
           (fun k => Bool.eqb (opt_truthy (range_source k)) (String.eqb k "googlebot")))
    in H; [|reflexivity].
  now apply Bool.eqb_prop in H.
Qed.

(** No pattern of the table matches the empty host name. *)
Lemma rdns_patterns_reject_empty (crawler_key : string) :
  hostname_matches (rdns_patterns crawler_key) "" = false.
Proof.
  unfold rdns_patterns.
  destruct (dict_get CRAWLER_RDNS_PATTERNS crawler_key) as [ps|] eqn:Hget;
    [|reflexivity].
  apply dict_get_In in Hget. simpl in Hget.
  repeat (destruct Hget as [[= <- <-]|Hget]; [reflexivity|]).
  destruct Hget.
Qed.

Lemma hostname_matches_truthy (crawler_key hostname : string) :
  hostname_matches (rdns_patterns crawler_key) hostname = true ->
  str_truthy hostname = true.
Proof.
  destruct hostname; [|reflexivity].
  now rewrite rdns_patterns_reject_empty.
Qed.

Lemma list_in_In (x : string) (l : list string) :
  list_in x l = true <-> In x l.
Proof.
  unfold list_in. rewrite existsb_exists. split.
  - intros (y & Hy & Heq). apply String.eqb_eq in Heq. now subst.
  - intros H. exists x. split; [assumption|apply String.eqb_refl].
Qed.

(** ** C10: classified identities have suffix patterns *)

(** C10. Every identity key of the fragment table [UA_TO_CRAWLER_KEY]
    has a non-empty list of reverse-DNS suffix patterns in
    [CRAWLER_RDNS_PATTERNS]; hence whenever [extract_crawler_identity]
    returns a key, the pattern list that [verify_rdns] looks up for it
    is not empty. *)
Theorem classified_identity_has_patterns :
  Forall (fun item => rdns_patterns (snd item) <> []) UA_TO_CRAWLER_KEY /\
  forall user_agent crawler_key,
    extract_crawler_identity user_agent = Some crawler_key ->
    rdns_patterns crawler_key <> [].
Proof.
  split.
  - unfold UA_TO_CRAWLER_KEY. repeat constructor; discriminate.
  - intros user_agent crawler_key H.
    apply (classified_forallb
             (fun k => match rdns_patterns k with [] => false | _ => true end))
      in H; [|reflexivity].
    destruct (rdns_patterns crawler_key); [discriminate|discriminate].
Qed.

Lemma classified_identity_has_patterns_witness :
  extract_crawler_identity Sample.googlebot_ua = Some "googlebot" /\
  rdns_patterns "googlebot" <> [].
Proof.
  split; [reflexivity|].
  apply (proj2 classified_identity_has_patterns Sample.googlebot_ua "googlebot").
  reflexivity.
Defined.

(** ** C1: a forged reverse record fails the DNS check *)

Lemma verify_rdns_forward_mismatch
    (E : Env) (ip crawler_key hostname : string) (forward_ips : list string) :
  reverse_dns_lookup E ip = Ret (Some hostname) ->
  hostname_matches (rdns_patterns crawler_key) hostname = true ->
  forward_dns_lookup E hostname = Ret forward_ips ->
  ~ In ip forward_ips ->
  verify_rdns E ip crawler_key = Ret (false, Some hostname).
Proof.
  intros Hrev Hmatch Hfwd Hnotin. unfold verify_rdns.
  rewrite Hrev. simpl.
  rewrite (hostname_matches_truthy _ _ Hmatch). simpl.
  rewrite Hmatch. simpl. rewrite Hfwd. simpl.
  destruct (list_in ip forward_ips) eqn:Hin; [|reflexivity].
  apply list_in_In in Hin. contradiction.
Qed.

(** C1. For a declared agent that classifies to an identity: when the
    reverse lookup of the source address yields a host name that matches
    one of the identity's suffix patterns, and the forward lookup of
    that name yields addresses among which the source address is not,
    [verify_rdns] returns [(False, hostname)]. *)
Theorem forged_reverse_record_rejected
    (E : Env) (ip user_agent crawler_key hostname : string)
    (forward_ips : list string) :
  extract_crawler_identity user_agent = Some crawler_key ->
  reverse_dns_lookup E ip = Ret (Some hostname) ->
  hostname_matches (rdns_patterns crawler_key) hostname = true ->
  forward_dns_lookup E hostname = Ret forward_ips ->
  ~ In ip forward_ips ->
  verify_rdns E ip crawler_key = Ret (false, Some hostname).
Proof.
  intros _. apply verify_rdns_forward_mismatch.
Qed.

Lemma forged_reverse_record_rejected_witness :
  verify_rdns (Sample.forged 0) Sample.forged_ip "googlebot"
  = Ret (false, Some Sample.googlebot_host).
Proof.
  apply (forged_reverse_record_rejected
           (Sample.forged 0) Sample.forged_ip Sample.googlebot_ua "googlebot"
           Sample.googlebot_host [Sample.googlebot_ip]).
  - reflexivity.
  - reflexivity.
  - reflexivity.
  - reflexivity.
  - intros [H|[]]. discriminate H.
Defined.

(** ** The range cache *)

(** [fetch_ip_ranges] returns a list on every path. *)
Lemma fetch_ip_ranges_returns (E : Env) (crawler_key : string) (st : State) :
  exists ranges st', fetch_ip_ranges E crawler_key st = (Ret ranges, st').
Proof.
  unfold fetch_ip_ranges.
  destruct (cached_ranges _ _ _); [eauto|].
  destruct (range_source crawler_key) as [url|]; [|eauto].
  destruct (negb (str_truthy url)); [eauto|].
  destruct (download_ranges E url); eauto.
Qed.

(** A fresh entry is served as it is: no call, no change of state. *)
Lemma fetch_ip_ranges_hit
    (E : Env) (crawler_key : string) (st : State)
    (ranges : list value) (cached_at : float) :
  _ip_range_cache st !! crawler_key = Some (ranges, cached_at) ->
  within_ttl (time E) cached_at = true ->
  fetch_ip_ranges E crawler_key st = (Ret ranges, st).
Proof.
  intros Hget Hfresh. unfold fetch_ip_ranges, cached_ranges.
  now rewrite Hget, Hfresh.
Qed.

(** Without a fresh entry a successful download is stored under the
    time of the call. *)
Lemma fetch_ip_ranges_refresh
    (E : Env) (crawler_key source_url : string) (st : State)
    (ranges : list value) :
  cached_ranges (time E) (_ip_range_cache st) crawler_key = None ->
  range_source crawler_key = Some source_url ->
  str_truthy source_url = true ->
  download_ranges E source_url = Ret ranges ->
  fetch_ip_ranges E crawler_key st
  = (Ret ranges, store crawler_key (ranges, time E) (record_call source_url st)).
Proof.
  intros Hmiss Hsrc Hurl Hdl. unfold fetch_ip_ranges.
  now rewrite Hmiss, Hsrc, Hurl, Hdl.
Qed.

(** Without a fresh entry a failed download yields the empty list, and
    the cache is left as it was. *)
Lemma fetch_ip_ranges_failure
    (E : Env) (crawler_key source_url : string) (st : State) (e : exn) :
  cached_ranges (time E) (_ip_range_cache st) crawler_key = None ->
  range_source crawler_key = Some source_url ->
  str_truthy source_url = true ->
  download_ranges E source_url = Raise e ->
  fetch_ip_ranges E crawler_key st = (Ret [], record_call source_url st).
Proof.
  intros Hmiss Hsrc Hurl Hdl. unfold fetch_ip_ranges.
  now rewrite Hmiss, Hsrc, Hurl, Hdl.
Qed.

Lemma cached_ranges_stale
    (now : float) (cache : gmap string (list value * float))
    (crawler_key : string) (ranges : list value) (cached_at : float) :
  cache !! crawler_key = Some (ranges, cached_at) ->
  within_ttl now cached_at = false ->
  cached_ranges now cache crawler_key = None.
Proof. intros Hget Hstale. unfold cached_ranges. now rewrite Hget, Hstale. Qed.

Lemma cached_ranges_absent
    (now : float) (cache : gmap string (list value * float)) (crawler_key : string) :
  cache !! crawler_key = None ->
  cached_ranges now cache crawler_key = None.
Proof. intros Hget. unfold cached_ranges. now rewrite Hget. Qed.

(** ** C4: a failed refetch *)

(** C4, as stated, fails: the cache holds a list fetched at time 0, the
    call comes 20000 seconds later, the download fails, and the call
    returns the empty list, not the cached one. *)
Lemma stale_entry_not_served_counterexample :
  let cached := [JStr "66.249.64.0/19"] in
  let st := Sample.cached_state cached in
  let E := Sample.offline 20000 in
  _ip_range_cache st !! "googlebot" = Some (cached, 0%float) /\
  within_ttl (time E) 0 = false /\
  range_source "googlebot" = Some Sample.googlebot_url /\
  download_ranges E Sample.googlebot_url = Raise OSError /\
  fst (fetch_ip_ranges E "googlebot" st) = Ret [] /\
  fst (fetch_ip_ranges E "googlebot" st) <> Ret cached.
Proof.
  repeat split; try reflexivity.
  vm_compute. discriminate.
Qed.

(** C4, amended. For an identity with a range source whose cache entry
    is older than the TTL, or absent, a failed fetch makes
    [fetch_ip_ranges] return the empty list, without raising; an entry
    that was there stays in the cache as it was. *)
Theorem failed_fetch_returns_empty
    (E : Env) (crawler_key source_url : string) (st : State) (e : exn) :
  range_source crawler_key = Some source_url ->
  str_truthy source_url = true ->
  download_ranges E source_url = Raise e ->
  match _ip_range_cache st !! crawler_key with
  | Some (_, cached_at) => within_ttl (time E) cached_at = false
  | None => True
  end ->
  fetch_ip_ranges E crawler_key st = (Ret [], record_call source_url st) /\
  _ip_range_cache (record_call source_url st) = _ip_range_cache st.
Proof.
  intros Hsrc Hurl Hdl Hold. split; [|reflexivity].
  apply fetch_ip_ranges_failure with e; try assumption.
  destruct (_ip_range_cache st !! crawler_key) as [[ranges cached_at]|] eqn:Hget.
  - now apply cached_ranges_stale with ranges cached_at.
  - now apply cached_ranges_absent.
Qed.

Lemma failed_fetch_returns_empty_witness :
  fetch_ip_ranges (Sample.offline 20000) "googlebot"
    (Sample.cached_state [JStr "66.249.64.0/19"])
  = (Ret [],
     record_call Sample.googlebot_url (Sample.cached_state [JStr "66.249.64.0/19"])).
Proof.
  apply (failed_fetch_returns_empty
           (Sample.offline 20000) "googlebot" Sample.googlebot_url
           (Sample.cached_state [JStr "66.249.64.0/19"]) OSError).
  - reflexivity.
  - reflexivity.
  - reflexivity.
  - vm_compute. reflexivity.
Defined.

(** ** C7: the cache and the TTL *)

(** C7. For an identity with a range source, let a first call of
    [fetch_ip_ranges] download the list (there was no fresh entry, and
    the download succeeded).  That call makes one [urlopen] call and
    stores the list under its own time.  A second call within the TTL of
    that time returns the stored list and leaves the state, the log of
    [urlopen] calls included, as it was; a second call after the TTL
    makes one more [urlopen] call, and, when that download succeeds,
    returns the new list and stores it under the time of the second
    call. *)
Theorem cache_respects_ttl
    (E1 E2 : Env) (crawler_key source_url : string) (st : State)
    (ranges : list value) :
  range_source crawler_key = Some source_url ->
  str_truthy source_url = true ->
  cached_ranges (time E1) (_ip_range_cache st) crawler_key = None ->
  download_ranges E1 source_url = Ret ranges ->
  exists st1,
    fetch_ip_ranges E1 crawler_key st = (Ret ranges, st1) /\
    urlopen_calls st1 = urlopen_calls st ++ [source_url] /\
    _ip_range_cache st1 !! crawler_key = Some (ranges, time E1) /\
    (within_ttl (time E2) (time E1) = true ->
     fetch_ip_ranges E2 crawler_key st1 = (Ret ranges, st1)) /\
    (within_ttl (time E2) (time E1) = false ->
     urlopen_calls (snd (fetch_ip_ranges E2 crawler_key st1))
     = urlopen_calls st1 ++ [source_url] /\
     forall ranges',
       download_ranges E2 source_url = Ret ranges' ->
       fst (fetch_ip_ranges E2 crawler_key st1) = Ret ranges' /\
       _ip_range_cache (snd (fetch_ip_ranges E2 crawler_key st1)) !! crawler_key
       = Some (ranges', time E2)).
Proof.
  intros Hsrc Hurl Hmiss Hdl.
  exists (store crawler_key (ranges, time E1) (record_call source_url st)).
  assert (Hentry :
    _ip_range_cache (store crawler_key (ranges, time E1) (record_call source_url st))
      !! crawler_key = Some (ranges, time E1)).
  { simpl. apply lookup_insert_eq. }
  split; [now apply fetch_ip_ranges_refresh|].
  split; [reflexivity|].
  split; [exact Hentry|].
  split.
  - intros Hfresh. now apply fetch_ip_ranges_hit with (time E1).
  - intros Hstale.
    pose proof (cached_ranges_stale _ _ _ _ _ Hentry Hstale) as Hmiss2.
    destruct (download_ranges E2 source_url) as [ranges2|e] eqn:Hdl2.
    + rewrite (fetch_ip_ranges_refresh _ _ _ _ _ Hmiss2 Hsrc Hurl Hdl2).
      split; [reflexivity|].
      intros ranges' [= <-]. split; [reflexivity|].
      simpl. apply lookup_insert_eq.
    + rewrite (fetch_ip_ranges_failure _ _ _ _ _ Hmiss2 Hsrc Hurl Hdl2).
      split; [reflexivity|]. intros ranges' [=].
Qed.

Lemma cache_respects_ttl_witness :
  exists st1,
    fetch_ip_ranges (Sample.honest 0) "googlebot" Sample.empty_state
    = (Ret Sample.published_ranges, st1) /\
    urlopen_calls st1 = [Sample.googlebot_url] /\
    fetch_ip_ranges (Sample.honest 14399) "googlebot" st1
    = (Ret Sample.published_ranges, st1).
Proof.
  destruct (cache_respects_ttl
              (Sample.honest 0) (Sample.honest 14399) "googlebot"
              Sample.googlebot_url Sample.empty_state Sample.published_ranges)
    as (st1 & Hfirst & Hcalls & _ & Hhit & _).
  - reflexivity.
  - reflexivity.
  - reflexivity.
  - reflexivity.
  - exists st1. split; [exact Hfirst|]. split; [exact Hcalls|].
    apply Hhit. reflexivity.
Defined.

(** ** C8: malformed entries and malformed addresses *)

Section RangeMatcher.
Context {L : ipaddress.Lib}.

(** The loop answers [True] exactly when some entry of the list is a
    network that holds the address. *)
Lemma scan_ranges_true (ip_obj : ipaddress.address) (ranges : list value) :
  scan_ranges ip_obj ranges = true <->
  exists cidr network,
    In cidr ranges /\
    ipaddress.ip_network cidr = Some network /\
    ipaddress.contains network ip_obj = true.
Proof.
  induction ranges as [|cidr rest IH]; simpl.
  - split; [discriminate|]. intros (c & n & [] & _).
  - destruct (ipaddress.ip_network cidr) as [network|] eqn:Hnet.
    + destruct (ipaddress.contains network ip_obj) eqn:Hin.
      * split; [|reflexivity]. intros _. exists cidr, network. auto.
      * rewrite IH. split.
        -- intros (c & n & Hc & Hn & Hh). exists c, n. auto.
        -- intros (c & n & [<-|Hc] & Hn & Hh).
           ++ rewrite Hnet in Hn. injection Hn as <-. congruence.
           ++ exists c, n. auto.
    + rewrite IH. split.
      * intros (c & n & Hc & Hn & Hh). exists c, n. auto.
      * intros (c & n & [<-|Hc] & Hn & Hh); [congruence|].
        exists c, n. auto.
Qed.

(** [verify_ip_range] returns a boolean on every path. *)
Lemma verify_ip_range_returns (E : Env) (ip crawler_key : string) (st : State) :
  exists verified st', verify_ip_range E ip crawler_key st = (Ret verified, st').
Proof.
  unfold verify_ip_range, bind.
  destruct (fetch_ip_ranges_returns E crawler_key st) as (ranges & st' & ->).
  destruct ranges; [unfold ret; eauto|].
  destruct (ipaddress.ip_address ip); unfold ret; eauto.
Qed.

(** C8. Whatever list [fetch_ip_ranges] hands to [verify_ip_range]:
    the call returns a boolean and raises nothing; for an address that
    [ip_address] rejects the boolean is [False]; for an address it
    accepts the boolean is [True] exactly when some entry of the list is
    a network holding the address, so that the entries [ip_network]
    rejects neither stop the scan nor hide the entries around them. *)
Theorem malformed_data_skipped
    (E : Env) (ip crawler_key : string) (st st' : State) (ranges : list value) :
  fetch_ip_ranges E crawler_key st = (Ret ranges, st') ->
  exists verified,
    verify_ip_range E ip crawler_key st = (Ret verified, st') /\
    (ipaddress.ip_address ip = None -> verified = false) /\
    (forall ip_obj,
       ipaddress.ip_address ip = Some ip_obj ->
       (verified = true <->
        exists cidr network,
          In cidr ranges /\
          ipaddress.ip_network cidr = Some network /\
          ipaddress.contains network ip_obj = true)).
Proof.
  intros Hfetch. unfold verify_ip_range, bind. rewrite Hfetch.
  destruct ranges as [|cidr rest].
  - exists false. split; [reflexivity|]. split; [reflexivity|].
    intros ip_obj _. split; [discriminate|]. intros (c & n & [] & _).
  - destruct (ipaddress.ip_address ip) as [a|] eqn:Hip.
    + exists (scan_ranges a (cidr :: rest)). split; [reflexivity|].
      split; [discriminate|].
      intros ip_obj [= <-]. apply scan_ranges_true.
    + exists false. split; [reflexivity|]. split; [reflexivity|].
      intros ip_obj [=].
Qed.

End RangeMatcher.

Lemma malformed_data_skipped_witness :
  verify_ip_range (L := Ipv4.lib) (Sample.honest 0) Sample.googlebot_ip "googlebot"
    Sample.empty_state
  = (Ret true,
     store "googlebot" (Sample.published_ranges, 0%float)
       (record_call Sample.googlebot_url Sample.empty_state)).
Proof.
  destruct (malformed_data_skipped (L := Ipv4.lib)
              (Sample.honest 0) Sample.googlebot_ip "googlebot" Sample.empty_state
              (store "googlebot" (Sample.published_ranges, 0%float)
                 (record_call Sample.googlebot_url Sample.empty_state))
              Sample.published_ranges)
    as (verified & Hcall & _ & Hscan).
  - reflexivity.
  - rewrite Hcall. f_equal. f_equal.
    apply (Hscan 1123631617%N); [reflexivity|].
    exists (JStr "66.249.64.0/19"), (1123631104%N, 4294959104%N).
    split; [simpl; auto|]. split; reflexivity.
Defined.

(** ** The verdict of [is_verified_crawler] *)

Section Verdict.
Context {L : ipaddress.Lib}.

(** The result for a classified agent whose DNS check came back. *)
Lemma is_verified_crawler_classified
    (E : Env) (ip user_agent : string) (require_both_checks : bool) (st : State)
    (key : string) (dns : bool) (host : option string) :
  extract_crawler_identity user_agent = Some key ->
  verify_rdns E ip key = Ret (dns, host) ->
  exists rng st',
    verify_ip_range E ip key st = (Ret rng, st') /\
    is_verified_crawler E ip user_agent require_both_checks st
    = (Ret {| ip_address := ip;
              user_agent := user_agent;
              claimed_crawler := Some key;
              rdns_hostname := host;
              rdns_verified := dns;
              ip_range_verified := rng;
              is_legitimate := fst (final_verdict require_both_checks key dns rng);
              reason := snd (final_verdict require_both_checks key dns rng) |},
       st').
Proof.
  intros Hkey Hdns.
  destruct (verify_ip_range_returns E ip key st) as (rng & st' & Hrng).
  exists rng, st'. split; [exact Hrng|].
  unfold is_verified_crawler. rewrite Hkey.
  rewrite (classified_truthy _ _ Hkey). simpl.
  unfold bind, lift. rewrite Hdns, Hrng. reflexivity.
Qed.

(** Conversely, a result for a classified agent records the two checks
    and the verdict computed from them. *)
Lemma is_verified_crawler_inv
    (E : Env) (ip user_agent : string) (require_both_checks : bool) (st st' : State)
    (key : string) (r : CrawlerVerificationResult) :
  extract_crawler_identity user_agent = Some key ->
  is_verified_crawler E ip user_agent require_both_checks st = (Ret r, st') ->
  verify_rdns E ip key = Ret (rdns_verified r, rdns_hostname r) /\
  verify_ip_range E ip key st = (Ret (ip_range_verified r), st') /\
  is_legitimate r
  = fst (final_verdict require_both_checks key (rdns_verified r) (ip_range_verified r)) /\
  reason r
  = snd (final_verdict require_both_checks key (rdns_verified r) (ip_range_verified r)).
Proof.
  intros Hkey Hcall.
  destruct (verify_rdns E ip key) as [[dns host]|e] eqn:Hdns.
  - destruct (is_verified_crawler_classified
                E ip user_agent require_both_checks st key dns host Hkey Hdns)
      as (rng & st1 & Hrng & Hres).
    rewrite Hres in Hcall. injection Hcall as <- <-. simpl. auto.
  - unfold is_verified_crawler in Hcall. rewrite Hkey in Hcall.
    rewrite (classified_truthy _ _ Hkey) in Hcall. simpl in Hcall.
    unfold bind, lift in Hcall. rewrite Hdns in Hcall. discriminate.
Qed.

(** ** C6: an unrecognized agent *)

(** C6. For a declared agent that classifies to no identity,
    [is_verified_crawler] returns, whatever the source address, the
    flag and the world, a result whose verdict is [False] and whose
    reason is the message kept for this case, and leaves the state
    untouched; no result for a classified agent carries that message. *)
Theorem unrecognized_agent_rejected :
  (forall E ip user_agent require_both_checks st,
     extract_crawler_identity user_agent = None ->
     is_verified_crawler E ip user_agent require_both_checks st
     = (Ret {| ip_address := ip;
               user_agent := user_agent;
               claimed_crawler := None;
               rdns_hostname := None;
               rdns_verified := false;
               ip_range_verified := false;
               is_legitimate := false;
               reason := "User-Agent does not claim to be a known search crawler" |},
        st)) /\
  (forall E ip user_agent require_both_checks st st' key r,
     extract_crawler_identity user_agent = Some key ->
     is_verified_crawler E ip user_agent require_both_checks st = (Ret r, st') ->
     reason r <> "User-Agent does not claim to be a known search crawler").
Proof.
  split.
  - intros E ip user_agent require_both_checks st Hnone.
    unfold is_verified_crawler. now rewrite Hnone.
  - intros E ip user_agent require_both_checks st st' key r Hkey Hcall.
    destruct (is_verified_crawler_inv _ _ _ _ _ _ _ _ Hkey Hcall) as (_ & _ & _ & ->).
    unfold final_verdict.
    destruct require_both_checks, (opt_truthy (range_source key)),
             (rdns_verified r), (ip_range_verified r);
      simpl; discriminate.
Qed.

(** ** C2: both checks required *)

(** C2. For a declared agent that classifies to an identity and a DNS
    check that came back, [is_verified_crawler] with
    [require_both_checks = True] returns a result that records both
    checks; when the identity has a range source its verdict is [True]
    exactly when both checks are, and when it has none its verdict is
    the DNS check. *)
Theorem strict_policy_verdict
    (E : Env) (ip user_agent key : string) (st : State)
    (dns : bool) (host : option string) :
  extract_crawler_identity user_agent = Some key ->
  verify_rdns E ip key = Ret (dns, host) ->
  exists rng st' r,
    verify_ip_range E ip key st = (Ret rng, st') /\
    is_verified_crawler E ip user_agent true st = (Ret r, st') /\
    rdns_verified r = dns /\
    ip_range_verified r = rng /\
    (opt_truthy (range_source key) = true ->
     (is_legitimate r = true <-> dns = true /\ rng = true)) /\
    (opt_truthy (range_source key) = false -> is_legitimate r = dns).
Proof.
  intros Hkey Hdns.
  destruct (is_verified_crawler_classified E ip user_agent true st key dns host Hkey Hdns)
    as (rng & st' & Hrng & Hres).
  eexists rng, st', _. split; [exact Hrng|]. split; [exact Hres|].
  simpl. split; [reflexivity|]. split; [reflexivity|].
  unfold final_verdict. split; intros ->; simpl.
  - apply andb_true_iff.
  - reflexivity.
Qed.

(** ** C3: either check suffices *)

(** C3. For a declared agent that classifies to an identity and a DNS
    check that came back, [is_verified_crawler] with
    [require_both_checks = False] returns a result that records both
    checks and whose verdict is [True] exactly when the DNS check or
    the range check is. *)
Theorem default_policy_verdict
    (E : Env) (ip user_agent key : string) (st : State)
    (dns : bool) (host : option string) :
  extract_crawler_identity user_agent = Some key ->
  verify_rdns E ip key = Ret (dns, host) ->
  exists rng st' r,
    verify_ip_range E ip key st = (Ret rng, st') /\
    is_verified_crawler E ip user_agent false st = (Ret r, st') /\
    rdns_verified r = dns /\
    ip_range_verified r = rng /\
    (is_legitimate r = true <-> dns = true \/ rng = true).
Proof.
  intros Hkey Hdns.
  destruct (is_verified_crawler_classified E ip user_agent false st key dns host Hkey Hdns)
    as (rng & st' & Hrng & Hres).
  eexists rng, st', _. split; [exact Hrng|]. split; [exact Hres|].
  simpl. split; [reflexivity|]. split; [reflexivity|].
  apply orb_true_iff.
Qed.

End Verdict.

Section VerdictWitnesses.
Import Sample.
#[local] Existing Instance Ipv4.lib.

Lemma unrecognized_agent_rejected_witness :
  is_verified_crawler (honest 0) "1.2.3.4" chrome_ua false empty_state
  = (Ret {| ip_address := "1.2.3.4";
            user_agent := chrome_ua;
            claimed_crawler := None;
            rdns_hostname := None;
            rdns_verified := false;
            ip_range_verified := false;
            is_legitimate := false;
            reason := "User-Agent does not claim to be a known search crawler" |},
     empty_state).
Proof.
  apply (proj1 unrecognized_agent_rejected (honest 0) "1.2.3.4" chrome_ua false empty_state).
  reflexivity.
Defined.

Lemma strict_policy_verdict_witness :
  exists rng st' r,
    verify_ip_range (honest 0) googlebot_ip "googlebot" empty_state = (Ret rng, st') /\
    is_verified_crawler (honest 0) googlebot_ip googlebot_ua true empty_state
    = (Ret r, st') /\
    rdns_verified r = true /\
    ip_range_verified r = rng /\
    (opt_truthy (range_source "googlebot") = true ->
     (is_legitimate r = true <-> true = true /\ rng = true)) /\
    (opt_truthy (range_source "googlebot") = false -> is_legitimate r = true).
Proof.
  apply (strict_policy_verdict
           (honest 0) googlebot_ip googlebot_ua "googlebot" empty_state
           true (Some googlebot_host)).
  - reflexivity.
  - reflexivity.
Defined.

Lemma default_policy_verdict_witness :
  exists rng st' r,
    verify_ip_range (offline 0) googlebot_ip "googlebot" empty_state = (Ret rng, st') /\
    is_verified_crawler (offline 0) googlebot_ip googlebot_ua false empty_state
    = (Ret r, st') /\
    rdns_verified r = true /\
    ip_range_verified r = rng /\
    (is_legitimate r = true <-> true = true \/ rng = true).
Proof.
  apply (default_policy_verdict
           (offline 0) googlebot_ip googlebot_ua "googlebot" empty_state
           true (Some googlebot_host)).
  - reflexivity.
  - reflexivity.
Defined.

(** Both checks required, no range source: the DNS check decides. *)
Example strict_policy_bingbot :
  fst (is_verified_crawler (bing 0) bingbot_ip bingbot_ua true empty_state)
  = Ret {| ip_address := bingbot_ip;
           user_agent := bingbot_ua;
           claimed_crawler := Some "bingbot";
           rdns_hostname := Some bingbot_host;
           rdns_verified := true;
           ip_range_verified := false;
           is_legitimate := true;
           reason := "Verified via rDNS (no published IP ranges for bingbot)" |}.
Proof. vm_compute. reflexivity. Qed.

(** Either check suffices: the reverse lookup fails, the address is in
    a published range. *)
Example default_policy_range_only :
  fst (is_verified_crawler
         {| time := 0; resolve_ptr := fun _ => Raise herror;
            resolve_addrs := fun _ => Raise gaierror;
            urlopen_json := fun _ => Ret published |}
         googlebot_ip googlebot_ua false empty_state)
  = Ret {| ip_address := googlebot_ip;
           user_agent := googlebot_ua;
           claimed_crawler := Some "googlebot";
           rdns_hostname := None;
           rdns_verified := false;
           ip_range_verified := true;
           is_legitimate := true;
           reason := "Verified via IP range" |}.
Proof. vm_compute. reflexivity. Qed.

End VerdictWitnesses.

(** ** C5: what the reason tells *)

(** C5, as stated, fails when both checks are required: for the same
    identity, a request that passed the DNS check only and a request
    that passed neither check get the same reason. *)
Lemma strict_policy_reason_ambiguous_counterexample :
  exists r1 r2,
    extract_crawler_identity Sample.googlebot_ua = Some "googlebot" /\
    fst (is_verified_crawler (L := Ipv4.lib) (Sample.offline 0)
           Sample.googlebot_ip Sample.googlebot_ua true Sample.empty_state) = Ret r1 /\
    fst (is_verified_crawler (L := Ipv4.lib) (Sample.forged 0)
           Sample.forged_ip Sample.googlebot_ua true Sample.empty_state) = Ret r2 /\
    reason r1 = reason r2 /\
    (rdns_verified r1, ip_range_verified r1) = (true, false) /\
    (rdns_verified r2, ip_range_verified r2) = (false, false).
Proof.
  eexists _, _. split; [reflexivity|].
  split; [vm_compute; reflexivity|].
  split; [vm_compute; reflexivity|].
  repeat split.
Qed.

Section Reason.
Context {L : ipaddress.Lib}.

(** C5, amended. For classified identities: under the default policy
    the reason is one of four messages, one for each of the outcomes
    "both checks passed", "DNS only", "range only" and "neither", and
    two results with the same reason have the same outcome; when both
    checks are required, two results with the same reason have the same
    verdict. *)
Theorem reason_identifies_outcome :
  (forall E ip user_agent st st' key r,
     extract_crawler_identity user_agent = Some key ->
     is_verified_crawler E ip user_agent false st = (Ret r, st') ->
     reason r =
     match rdns_verified r, ip_range_verified r with
     | true, true => "Verified via rDNS and IP range"
     | true, false => "Verified via rDNS"
     | false, true => "Verified via IP range"
     | false, false =>
         "Impersonation detected: claims to be " +:+ key +:+ " but verification failed"
     end) /\
  (forall E1 ip1 user_agent1 st1 st1' key1 r1 E2 ip2 user_agent2 st2 st2' key2 r2,
     extract_crawler_identity user_agent1 = Some key1 ->
     extract_crawler_identity user_agent2 = Some key2 ->
     is_verified_crawler E1 ip1 user_agent1 false st1 = (Ret r1, st1') ->
     is_verified_crawler E2 ip2 user_agent2 false st2 = (Ret r2, st2') ->
     reason r1 = reason r2 ->
     rdns_verified r1 = rdns_verified r2 /\
     ip_range_verified r1 = ip_range_verified r2) /\
  (forall E1 ip1 user_agent1 st1 st1' key1 r1 E2 ip2 user_agent2 st2 st2' key2 r2,
     extract_crawler_identity user_agent1 = Some key1 ->
     extract_crawler_identity user_agent2 = Some key2 ->
     is_verified_crawler E1 ip1 user_agent1 true st1 = (Ret r1, st1') ->
     is_verified_crawler E2 ip2 user_agent2 true st2 = (Ret r2, st2') ->
     reason r1 = reason r2 ->
     is_legitimate r1 = is_legitimate r2).
Proof.
  split; [|split].
  - intros E ip user_agent st st' key r Hkey Hcall.
    destruct (is_verified_crawler_inv _ _ _ _ _ _ _ _ Hkey Hcall) as (_ & _ & _ & ->).
    unfold final_verdict.
    destruct (rdns_verified r), (ip_range_verified r); reflexivity.
  - intros E1 ip1 ua1 st1 st1' key1 r1 E2 ip2 ua2 st2 st2' key2 r2 Hk1 Hk2 H1 H2.
    destruct (is_verified_crawler_inv _ _ _ _ _ _ _ _ Hk1 H1) as (_ & _ & _ & ->).
    destruct (is_verified_crawler_inv _ _ _ _ _ _ _ _ Hk2 H2) as (_ & _ & _ & ->).
    unfold final_verdict.
    destruct (rdns_verified r1), (ip_range_verified r1),
             (rdns_verified r2), (ip_range_verified r2);
      simpl; intros Heq; try discriminate Heq; auto.
  - intros E1 ip1 ua1 st1 st1' key1 r1 E2 ip2 ua2 st2 st2' key2 r2 Hk1 Hk2 H1 H2.
    destruct (is_verified_crawler_inv _ _ _ _ _ _ _ _ Hk1 H1) as (_ & _ & -> & ->).
    destruct (is_verified_crawler_inv _ _ _ _ _ _ _ _ Hk2 H2) as (_ & _ & -> & ->).
    unfold final_verdict.
    destruct (opt_truthy (range_source key1)), (opt_truthy (range_source key2)),
             (rdns_verified r1), (ip_range_verified r1),
             (rdns_verified r2), (ip_range_verified r2);
      simpl; intros Heq; try discriminate Heq; auto.
Qed.

(** ** C9: a source address that the resolver call cannot encode *)

(** C9 fails.  The address has an empty label, so the conversion of the
    argument of [socket.gethostbyaddr] raises [UnicodeError], which is
    no [OSError]: [reverse_dns_lookup] lets it through, and so do
    [verify_rdns] and [is_verified_crawler], whatever the resolver, the
    endpoint, the flag and the state. *)
Theorem unencodable_address_raises
    (E : Env) (require_both_checks : bool) (st : State) :
  reverse_dns_lookup E "66.249..1" = Raise UnicodeError /\
  is_verified_crawler E "66.249..1" Sample.googlebot_ua require_both_checks st
  = (Raise UnicodeError, st).
Proof. split; reflexivity. Qed.

(** What does hold: when the two resolver calls raise nothing but
    [OSError] and its subclasses, [is_verified_crawler] returns a
    result. *)
Lemma is_verified_crawler_returns
    (E : Env) (ip user_agent : string) (require_both_checks : bool) (st : State) :
  (forall e, socket.gethostbyaddr E ip = Raise e -> is_OSError e = true) ->
  (forall host e, socket.getaddrinfo E host = Raise e -> is_OSError e = true) ->
  exists r st',
    is_verified_crawler E ip user_agent require_both_checks st = (Ret r, st').
Proof.
  intros Hrev Hfwd.
  destruct (extract_crawler_identity user_agent) as [key|] eqn:Hkey.
  - assert (Hdns : exists dns host, verify_rdns E ip key = Ret (dns, host)).
    { unfold verify_rdns, reverse_dns_lookup.
      destruct (socket.gethostbyaddr E ip) as [h|e] eqn:Hptr; simpl.
      - destruct (str_truthy h); simpl; [|eauto].
        destruct (hostname_matches (rdns_patterns key) h); simpl; [|eauto].
        unfold forward_dns_lookup.
        destruct (socket.getaddrinfo E h) as [ips|e] eqn:Haddr; simpl.
        + destruct (list_in ip (remove_dups ips)); eauto.
        + rewrite (Hfwd _ _ Haddr). simpl.
          destruct (list_in ip []); eauto.
      - rewrite (Hrev e eq_refl). simpl. eauto. }
    destruct Hdns as (dns & host & Hdns).
    destruct (is_verified_crawler_classified
                E ip user_agent require_both_checks st key dns host Hkey Hdns)
      as (rng & st' & _ & Hres).
    eauto.
  - unfold is_verified_crawler. rewrite Hkey. unfold ret. eauto.
Qed.

End Reason.

Lemma reason_identifies_outcome_witness :
  let r := {| ip_address := Sample.googlebot_ip;
              user_agent := Sample.googlebot_ua;
              claimed_crawler := Some "googlebot";
              rdns_hostname := Some Sample.googlebot_host;
              rdns_verified := true;
              ip_range_verified := false;
              is_legitimate := true;
              reason := "Verified via rDNS" |} in
  is_verified_crawler (L := Ipv4.lib) (Sample.offline 0)
    Sample.googlebot_ip Sample.googlebot_ua false Sample.empty_state
  = (Ret r, record_call Sample.googlebot_url Sample.empty_state) /\
  reason r = "Verified via rDNS".
Proof.
  intros r. split; [reflexivity|].
  apply (proj1 (reason_identifies_outcome (L := Ipv4.lib))
           (Sample.offline 0) Sample.googlebot_ip Sample.googlebot_ua
           Sample.empty_state
           (record_call Sample.googlebot_url Sample.empty_state)
           "googlebot" r).
  - reflexivity.
  - reflexivity.
Defined.

(** * Further properties *)

(** ** What the suffix patterns accept *)

Lemma append_nil (b : string) : EmptyString +:+ b = b.
Proof. reflexivity. Qed.

Lemma append_cons (c : ascii) (a b : string) :
  String c a +:+ b = String c (a +:+ b).
Proof. reflexivity. Qed.

(** [simpl] leaves [+:+] alone; these equations unfold it. *)
Ltac str_simpl := simpl; rewrite ?append_cons, ?append_nil.
Ltac str_simpl_in H := simpl in H; rewrite ?append_cons, ?append_nil in H.

Lemma lower_app (a b : string) : lower (a +:+ b) = lower a +:+ lower b.
Proof. induction a as [|c a IH]; str_simpl; [reflexivity|]. now rewrite IH. Qed.

Lemma lower_app_inv (s a b : string) :
  lower s = a +:+ b ->
  exists s1 s2, s = s1 +:+ s2 /\ lower s1 = a /\ lower s2 = b.
Proof.
  revert s. induction a as [|c a IH]; intros s H.
  - exists EmptyString, s. auto.
  - destruct s as [|d s]; str_simpl_in H; [discriminate|].
    injection H as Hc Hs. destruct (IH s Hs) as (s1 & s2 & -> & H1 & H2).
    exists (String d s1), s2. str_simpl. rewrite Hc, H1. auto.
Qed.

Lemma lower_char_idem (c : ascii) : lower_char (lower_char c) = lower_char c.
Proof.
  destruct c as [[] [] [] [] [] [] [] []]; reflexivity.
Qed.

Lemma lower_idem (s : string) : lower (lower s) = lower s.
Proof.
  induction s as [|c s IH]; simpl; [reflexivity|].
  now rewrite lower_char_idem, IH.
Qed.

Lemma app_assoc_str (a b c : string) : (a +:+ b) +:+ c = a +:+ (b +:+ c).
Proof. induction a as [|x a IH]; str_simpl; [reflexivity|]. now rewrite IH. Qed.

Lemma app_empty_r (a : string) : a +:+ EmptyString = a.
Proof. induction a as [|x a IH]; str_simpl; [reflexivity|]. now rewrite IH. Qed.

(** A pattern without [$] matches at the head of [s] exactly when [s]
    starts, up to case, with one of its words. *)
Lemma matchk_words (r : regex) :
  eol_free r = true ->
  forall s k,
    matchk r s k = true <->
    exists w m rest,
      In w (words r) /\ s = m +:+ rest /\ lower m = lower w /\ k rest = true.
Proof.
  induction r as [|c|r1 IH1 r2 IH2|r1 IH1 r2 IH2|]; simpl; intros Hfree s k.
  - split.
    + intros Hk. exists EmptyString, EmptyString, s. auto.
    + intros (w & m & rest & [<-|[]] & -> & Hm & Hk).
      destruct m; [exact Hk|discriminate].
  - split.
    + destruct s as [|d s']; [discriminate|].
      intros [Hc Hk]%andb_true_iff. apply Ascii.eqb_eq in Hc.
      exists (String c EmptyString), (String d EmptyString), s'.
      str_simpl. rewrite Hc. auto.
    + intros (w & m & rest & [<-|[]] & -> & Hm & Hk).
      destruct m as [|d [|? ?]]; simpl in Hm; try discriminate.
      injection Hm as Hm. str_simpl. rewrite Hk, Hm, Ascii.eqb_refl. reflexivity.
  - apply andb_true_iff in Hfree as [H1 H2]. split.
    + intros H. apply (IH1 H1) in H as (w1 & m1 & rest1 & Hw1 & -> & Hm1 & H).
      apply (IH2 H2) in H as (w2 & m2 & rest2 & Hw2 & -> & Hm2 & Hk).
      exists (w1 +:+ w2), (m1 +:+ m2), rest2.
      split; [|split; [|split]].
      * apply in_flat_map. exists w1. split; [assumption|]. now apply in_map.
      * now rewrite app_assoc_str.
      * now rewrite !lower_app, Hm1, Hm2.
      * exact Hk.
    + intros (w & m & rest & Hw & -> & Hm & Hk).
      apply in_flat_map in Hw as (w1 & Hw1 & Hw).
      apply in_map_iff in Hw as (w2 & <- & Hw2).
      rewrite lower_app in Hm.
      apply lower_app_inv in Hm as (m1 & m2 & -> & Hm1 & Hm2).
      apply (IH1 H1). exists w1, m1, (m2 +:+ rest).
      split; [assumption|]. split; [now rewrite app_assoc_str|].
      split; [assumption|].
      apply (IH2 H2). exists w2, m2, rest. auto.
  - apply andb_true_iff in Hfree as [H1 H2].
    rewrite orb_true_iff, (IH1 H1), (IH2 H2). split.
    + intros [(w & m & rest & Hw & Hrest)|(w & m & rest & Hw & Hrest)];
        exists w, m, rest; (split; [apply in_or_app; auto|exact Hrest]).
    + intros (w & m & rest & Hw & Hrest).
      apply in_app_or in Hw as [Hw|Hw]; [left|right]; exists w, m, rest; auto.
  - discriminate.
Qed.

Lemma at_eol_spec (s : string) :
  at_eol s = true <-> s = EmptyString \/ s = String newline EmptyString.
Proof.
  destruct s as [|c [|d s]]; simpl.
  - split; auto.
  - rewrite Ascii.eqb_eq. split.
    + intros ->. auto.
    + intros [H|H]; [discriminate|]. now injection H.
  - split; [discriminate|]. intros [H|H]; discriminate.
Qed.

Lemma search_exists (r : regex) (s : string) :
  search r s = true <->
  exists before rest, s = before +:+ rest /\ matchk r rest (fun _ => true) = true.
Proof.
  induction s as [|c s IH]; simpl.
  - rewrite orb_false_r. split.
    + intros H. exists EmptyString, EmptyString. auto.
    + intros (b & rest & Hs & H).
      destruct b; str_simpl_in Hs; [now subst|discriminate].
  - rewrite orb_true_iff, IH. split.
    + intros [H|(b & rest & -> & H)].
      * exists EmptyString, (String c s). auto.
      * exists (String c b), rest. auto.
    + intros (b & rest & Hs & H). destruct b as [|d b]; str_simpl_in Hs.
      * subst rest. now left.
      * injection Hs as -> ->. right. exists b, rest. auto.
Qed.

(** A pattern [body$] is found in a host name exactly when the name
    ends, up to case, with a word of [body]. *)
Lemma search_suffix_words (body : regex) (hostname : string) :
  eol_free body = true ->
  search (Cat body Eol) hostname = true <->
  exists w, In w (words body) /\ ends_with_ci hostname (lower w).
Proof.
  intros Hfree. rewrite search_exists. split.
  - intros (before & rest & -> & H). simpl in H.
    apply (matchk_words body Hfree) in H as (w & m & tail & Hw & -> & Hm & Heol).
    rewrite andb_true_r in Heol. apply at_eol_spec in Heol.
    exists w. split; [assumption|]. exists before, m, tail. auto.
  - intros (w & Hw & before & m & tail & -> & Hm & Htail).
    exists before, (m +:+ tail). split; [reflexivity|]. simpl.
    apply (matchk_words body Hfree). exists w, m, tail.
    split; [assumption|]. split; [reflexivity|].
    split; [exact Hm|].
    rewrite andb_true_r. now apply at_eol_spec.
Qed.

Lemma search_regroup (a b : regex) (s : string) :
  search (Cat a (Cat b Eol)) s = search (Cat (Cat a b) Eol) s.
Proof.
  induction s as [|c s IH]; simpl; [reflexivity|]. now rewrite IH.
Qed.

(** One case of the suffix check: the hypothesis says that one of the
    patterns of a key was found. *)
Ltac found_suffix H :=
  try rewrite search_regroup in H;
  apply search_suffix_words in H; [|reflexivity];
  let w := fresh "w" in
  let Hw := fresh "Hw" in
  let Hends := fresh "Hends" in
  destruct H as (w & Hw & Hends);
  vm_compute in Hw;
  repeat (destruct Hw as [Hw|Hw]; [subst w; eexists; split; [|exact Hends];
                                   unfold ACCEPTED_SUFFIXES; simpl; tauto|]);
  destruct Hw.

(** The converse case: the host name ends with a suffix of the key. *)
Ltac find_suffix Hends :=
  unfold hostname_matches; simpl existsb;
  repeat (apply orb_true_iff;
          first [ left; try rewrite search_regroup;
                  apply search_suffix_words; [reflexivity|];
                  match type of Hends with
                  | ends_with_ci _ ?suffix =>
                      exists suffix; split; [vm_compute; tauto|exact Hends]
                  end
                | right ]).

Lemma hostname_matches_suffixes (crawler_key hostname : string) :
  hostname_matches (rdns_patterns crawler_key) hostname = true ->
  exists suffix,
    In (crawler_key, suffix) ACCEPTED_SUFFIXES /\ ends_with_ci hostname suffix.
Proof.
  unfold rdns_patterns.
  destruct (dict_get CRAWLER_RDNS_PATTERNS crawler_key) as [pats|] eqn:Hget;
    [|discriminate].
  apply dict_get_In in Hget. unfold CRAWLER_RDNS_PATTERNS in Hget.
  unfold hostname_matches.
  repeat (destruct Hget as [[= <- <-]|Hget];
          [simpl existsb; intros H;
           repeat (apply orb_true_iff in H as [H|H]; [found_suffix H|]);
           discriminate H|]).
  destruct Hget.
Qed.

(** X1. The suffix check of [verify_rdns] accepts a host name for a
    crawler key exactly when the name ends, letter case aside and one
    trailing newline allowed, with one of the key's listed suffixes;
    nothing is asked of what stands before the suffix, not even a dot. *)
Theorem hostname_suffix_check (crawler_key hostname : string) :
  hostname_matches (rdns_patterns crawler_key) hostname = true <->
  exists suffix,
    In (crawler_key, suffix) ACCEPTED_SUFFIXES /\ ends_with_ci hostname suffix.
Proof.
  split; [apply hostname_matches_suffixes|].
  intros (suffix & Hin & Hends). unfold ACCEPTED_SUFFIXES in Hin.
  repeat (destruct Hin as [[= <- <-]|Hin];
          [match goal with
           | |- hostname_matches (rdns_patterns ?k) _ = true =>
               let ps := eval vm_compute in (rdns_patterns k) in
               change (rdns_patterns k) with ps
           end;
           find_suffix Hends|]).
  destruct Hin.
Qed.

(** A name that only ends like a crawler's passes the suffix check. *)
Lemma hostname_suffix_check_witness :
  hostname_matches (rdns_patterns "googlebot") "evil-GoogleBot.com" = true.
Proof.
  apply (hostname_suffix_check "googlebot" "evil-GoogleBot.com").
  exists "googlebot.com". split; [simpl; tauto|].
  exists "evil-", "GoogleBot.com", EmptyString. auto.
Defined.

(** ** The classifier *)

Lemma prefix_spec (a s : string) :
  String.prefix a s = true <-> exists rest, s = a +:+ rest.
Proof.
  revert s. induction a as [|c a IH]; intros s.
  - destruct s; simpl; (split; [|reflexivity]); intros _; eexists; reflexivity.
  - destruct s as [|d s]; simpl.
    + split; [discriminate|]. intros (rest & H). discriminate H.
    + destruct (ascii_dec c d) as [->|Hne].
      * rewrite IH. split.
        -- intros (rest & ->). exists rest. reflexivity.
        -- intros (rest & H). rewrite append_cons in H.
           injection H as ->. exists rest. reflexivity.
      * split; [discriminate|]. intros (rest & H). rewrite append_cons in H.
        injection H as -> _. contradiction.
Qed.

Lemma str_in_nil (frag : string) :
  str_in frag EmptyString = String.prefix frag EmptyString.
Proof. simpl. apply orb_false_r. Qed.

Lemma str_in_cons (frag : string) (c : ascii) (s : string) :
  str_in frag (String c s) = String.prefix frag (String c s) || str_in frag s.
Proof. reflexivity. Qed.

(** [frag in s] holds exactly when [s] is some text, [frag], some text. *)
Lemma str_in_spec (frag s : string) :
  str_in frag s = true <-> exists before after, s = before +:+ frag +:+ after.
Proof.
  induction s as [|c s IH].
  - rewrite str_in_nil, prefix_spec. split.
    + intros (rest & H). exists EmptyString, rest. exact H.
    + intros (b & a & H). destruct b; [|discriminate H]. exists a. exact H.
  - rewrite str_in_cons, orb_true_iff, prefix_spec, IH. split.
    + intros [(rest & ->)|(b & a & ->)].
      * exists EmptyString, rest. reflexivity.
      * exists (String c b), a. reflexivity.
    + intros (b & a & H). destruct b as [|d b].
      * left. exists a. exact H.
      * rewrite append_cons in H. injection H as -> ->. right. eauto.
Qed.

Lemma first_fragment_none (items : dict string) (ua_lower : string) :
  first_fragment items ua_lower = None <->
  forall frag key, In (frag, key) items -> str_in frag ua_lower = false.
Proof.
  induction items as [|[f k] items IH]; simpl.
  - split; [intros _ ? ? []|reflexivity].
  - destruct (str_in f ua_lower) eqn:Hf.
    + split; [discriminate|]. intros H.
      rewrite (H f k) in Hf; [discriminate|now left].
    + rewrite IH. split.
      * intros H frag key [[= <- <-]|Hin]; [exact Hf|eauto].
      * intros H frag key Hin. apply (H frag key). now right.
Qed.

Lemma first_fragment_some (items : dict string) (ua_lower key : string) :
  first_fragment items ua_lower = Some key <->
  exists before frag after,
    items = before ++ (frag, key) :: after /\
    (forall f k, In (f, k) before -> str_in f ua_lower = false) /\
    str_in frag ua_lower = true.
Proof.
  induction items as [|[f k] items IH]; simpl.
  - split; [discriminate|]. intros (b & frag & a & H & _). now destruct b.
  - destruct (str_in f ua_lower) eqn:Hf.
    + split.
      * intros [= <-]. exists [], f, items. split; [reflexivity|].
        split; [intros ? ? []|exact Hf].
      * intros (b & frag & a & H & Hb & Hfrag). destruct b as [|[f' k'] b].
        -- simpl in H. congruence.
        -- pose proof (Hb f' k' (or_introl eq_refl)) as Hno.
           simpl in H. injection H as Hf' Hk' Hitems. congruence.
    + rewrite IH. split.
      * intros (b & frag & a & -> & Hb & Hfrag).
        exists ((f, k) :: b), frag, a. split; [reflexivity|]. split; [|exact Hfrag].
        intros f' k' [[= <- <-]|Hin]; [exact Hf|eauto].
      * intros (b & frag & a & H & Hb & Hfrag). destruct b as [|[f' k'] b].
        -- simpl in H. injection H as Hf' Hk' Hitems. congruence.
        -- simpl in H. injection H as Hf' Hk' Hitems.
           exists b, frag, a. split; [exact Hitems|].
           split; [|exact Hfrag]. intros f0 k0 Hin. apply (Hb f0 k0). now right.
Qed.

(** X2. [extract_crawler_identity] returns the key of the first entry
    of [UA_TO_CRAWLER_KEY] whose fragment occurs in the lower-cased
    User-Agent: the entries before it do not occur. *)
Theorem extract_first_match (user_agent key : string) :
  extract_crawler_identity user_agent = Some key <->
  exists before frag after,
    UA_TO_CRAWLER_KEY = before ++ (frag, key) :: after /\
    (forall f k, In (f, k) before -> str_in f (lower user_agent) = false) /\
    str_in frag (lower user_agent) = true.
Proof.
  unfold extract_crawler_identity.
  apply (first_fragment_some UA_TO_CRAWLER_KEY (lower user_agent) key).
Qed.

(** A bingbot fragment after a Googlebot fragment does not count. *)
Lemma extract_first_match_witness :
  extract_crawler_identity "bingbot/2.0 (like Googlebot)" = Some "googlebot".
Proof.
  apply (extract_first_match "bingbot/2.0 (like Googlebot)" "googlebot").
  exists [], "googlebot", (tl UA_TO_CRAWLER_KEY).
  split; [reflexivity|]. split; [intros f k []|reflexivity].
Defined.

(** X3. [extract_crawler_identity] returns [None] exactly when no
    fragment of [UA_TO_CRAWLER_KEY] occurs in the lower-cased
    User-Agent. *)
Theorem extract_none (user_agent : string) :
  extract_crawler_identity user_agent = None <->
  forall frag key,
    In (frag, key) UA_TO_CRAWLER_KEY -> str_in frag (lower user_agent) = false.
Proof.
  unfold extract_crawler_identity.
  apply (first_fragment_none UA_TO_CRAWLER_KEY (lower user_agent)).
Qed.

Lemma extract_none_witness :
  str_in "googlebot" (lower Sample.chrome_ua) = false.
Proof.
  apply (proj1 (extract_none Sample.chrome_ua) eq_refl "googlebot" "googlebot").
  simpl. tauto.
Defined.

(** X4. The classification does not look at letter case, and text put
    before or after a classified User-Agent never makes it
    unclassified. *)
Theorem extract_stable (user_agent before after key : string) :
  extract_crawler_identity user_agent = Some key ->
  extract_crawler_identity (lower user_agent) = Some key /\
  exists key',
    extract_crawler_identity (before +:+ user_agent +:+ after) = Some key'.
Proof.
  intros H. split.
  - unfold extract_crawler_identity in *. now rewrite lower_idem.
  - destruct (extract_crawler_identity (before +:+ user_agent +:+ after))
      as [key'|] eqn:Hext; [eauto|].
    unfold extract_crawler_identity in H, Hext.
    apply first_fragment_some in H as (b & frag & a & Htab & _ & Hfrag).
    rewrite first_fragment_none in Hext.
    specialize (Hext frag key). rewrite Htab in Hext.
    assert (Hin : In (frag, key) (b ++ (frag, key) :: a))
      by (apply in_or_app; right; now left).
    specialize (Hext Hin).
    apply str_in_spec in Hfrag as (p & q & Hua).
    assert (Hocc : str_in frag (lower (before +:+ user_agent +:+ after)) = true).
    { apply str_in_spec. rewrite !lower_app, Hua.
      exists (lower before +:+ p), (q +:+ lower after).
      now rewrite !app_assoc_str. }
    congruence.
Qed.

Lemma extract_stable_witness :
  extract_crawler_identity (lower Sample.googlebot_ua) = Some "googlebot" /\
  exists key',
    extract_crawler_identity ("x " +:+ Sample.googlebot_ua +:+ " y") = Some key'.
Proof.
  apply (extract_stable Sample.googlebot_ua "x " " y" "googlebot").
  reflexivity.
Defined.

(** ** The DNS check *)

Lemma str_truthy_false (s : string) : str_truthy s = false <-> s = EmptyString.
Proof. destruct s; simpl; split; congruence. Qed.

Lemma list_in_remove_dups (x : string) (l : list string) :
  list_in x (remove_dups l) = true <-> In x l.
Proof.
  rewrite list_in_In, <- !list_elem_of_In. apply elem_of_remove_dups.
Qed.

Lemma verify_rdns_true_inv
    (E : Env) (ip crawler_key : string) (host : option string) :
  verify_rdns E ip crawler_key = Ret (true, host) ->
  exists hostname results,
    host = Some hostname /\
    socket.gethostbyaddr E ip = Ret hostname /\
    hostname_matches (rdns_patterns crawler_key) hostname = true /\
    socket.getaddrinfo E hostname = Ret results /\
    In ip results.
Proof.
  unfold verify_rdns, reverse_dns_lookup.
  destruct (socket.gethostbyaddr E ip) as [h|e]; simpl;
    [|destruct (is_OSError e); discriminate].
  destruct (str_truthy h); simpl; [|discriminate].
  destruct (hostname_matches (rdns_patterns crawler_key) h) eqn:Hm; simpl;
    [|discriminate].
  unfold forward_dns_lookup.
  destruct (socket.getaddrinfo E h) as [results|e] eqn:Hfwd; simpl.
  - destruct (list_in ip (remove_dups results)) eqn:Hin; [|discriminate].
    intros [= <-]. exists h, results.
    split; [reflexivity|]. split; [reflexivity|]. split; [exact Hm|].
    split; [exact Hfwd|]. now apply list_in_remove_dups.
  - destruct (is_OSError e); simpl; discriminate.
Qed.

(** X5. [verify_rdns] answers [True] in one case only: the reverse
    lookup returns a name, the name passes the suffix check of the
    crawler key, the forward lookup of the name returns addresses, and
    the source address is one of them.  The name comes back with the
    answer. *)
Theorem verify_rdns_true
    (E : Env) (ip crawler_key : string) (host : option string) :
  verify_rdns E ip crawler_key = Ret (true, host) <->
  exists hostname results,
    host = Some hostname /\
    socket.gethostbyaddr E ip = Ret hostname /\
    hostname_matches (rdns_patterns crawler_key) hostname = true /\
    socket.getaddrinfo E hostname = Ret results /\
    In ip results.
Proof.
  split; [apply verify_rdns_true_inv|].
  intros (h & results & -> & Hptr & Hm & Hfwd & Hin).
  unfold verify_rdns, reverse_dns_lookup. rewrite Hptr. simpl.
  rewrite (hostname_matches_truthy _ _ Hm). simpl. rewrite Hm. simpl.
  unfold forward_dns_lookup. rewrite Hfwd. simpl.
  apply list_in_remove_dups in Hin. now rewrite Hin.
Qed.

Lemma verify_rdns_true_witness :
  verify_rdns (Sample.honest 0) Sample.googlebot_ip "googlebot"
  = Ret (true, Some Sample.googlebot_host).
Proof.
  apply (verify_rdns_true (Sample.honest 0) Sample.googlebot_ip "googlebot").
  exists Sample.googlebot_host, [Sample.googlebot_ip].
  repeat split. simpl. tauto.
Defined.

(** X6. [verify_rdns] answers [(False, None)] exactly when the reverse
    lookup fails with [OSError] or one of its subclasses, or returns
    the empty name. *)
Theorem verify_rdns_no_name (E : Env) (ip crawler_key : string) :
  verify_rdns E ip crawler_key = Ret (false, None) <->
  (exists e, socket.gethostbyaddr E ip = Raise e /\ is_OSError e = true) \/
  socket.gethostbyaddr E ip = Ret EmptyString.
Proof.
  unfold verify_rdns, reverse_dns_lookup. split.
  - destruct (socket.gethostbyaddr E ip) as [h|e]; simpl.
    + destruct h as [|c h]; simpl; [auto|].
      destruct (hostname_matches _ _); simpl; [|discriminate].
      destruct (forward_dns_lookup E (String c h)); simpl; [|discriminate].
      destruct (list_in ip v); discriminate.
    + destruct (is_OSError e) eqn:He; simpl; [|discriminate]. eauto.
  - intros [(e & -> & He)| ->]; simpl; [now rewrite He|reflexivity].
Qed.

Lemma verify_rdns_no_name_witness :
  verify_rdns (Sample.honest 0) "1.2.3.4" "googlebot" = Ret (false, None).
Proof.
  apply (verify_rdns_no_name (Sample.honest 0) "1.2.3.4" "googlebot").
  left. exists herror. split; reflexivity.
Defined.

(** X7. When the name that the reverse lookup returns fails the suffix
    check, [verify_rdns] answers [(False, name)] whatever the forward
    resolver would do: the forward lookup is not made. *)
Theorem verify_rdns_suffix_mismatch
    (E : Env) (ip crawler_key hostname : string) :
  socket.gethostbyaddr E ip = Ret hostname ->
  hostname <> EmptyString ->
  hostname_matches (rdns_patterns crawler_key) hostname = false ->
  forall forward : string -> Res (list string),
    verify_rdns {| time := time E;
                   resolve_ptr := resolve_ptr E;
                   resolve_addrs := forward;
                   urlopen_json := urlopen_json E |} ip crawler_key
    = Ret (false, Some hostname).
Proof.
  intros Hptr Hne Hm forward.
  unfold verify_rdns, reverse_dns_lookup.
  change (socket.gethostbyaddr _ ip) with (socket.gethostbyaddr E ip).
  rewrite Hptr. simpl.
  destruct (str_truthy hostname) eqn:Ht;
    [|apply str_truthy_false in Ht; contradiction].
  simpl. now rewrite Hm.
Qed.

Lemma verify_rdns_suffix_mismatch_witness :
  verify_rdns
    {| time := 0;
       resolve_ptr := fun _ => Ret "static.1.0.9.5.clients.your-server.de";
       resolve_addrs := fun _ => Raise TypeError;
       urlopen_json := fun _ => Raise OSError |}
    "5.9.0.1" "googlebot"
  = Ret (false, Some "static.1.0.9.5.clients.your-server.de").
Proof.
  apply (verify_rdns_suffix_mismatch
           {| time := 0;
              resolve_ptr := fun _ => Ret "static.1.0.9.5.clients.your-server.de";
              resolve_addrs := fun _ => Ret [];
              urlopen_json := fun _ => Raise OSError |}
           "5.9.0.1" "googlebot" "static.1.0.9.5.clients.your-server.de").
  - reflexivity.
  - discriminate.
  - reflexivity.
Defined.

(** X8. For a crawler key that [CRAWLER_RDNS_PATTERNS] does not hold,
    [google-special-crawlers] among them, [verify_rdns] never answers
    [True]. *)
Theorem verify_rdns_unknown_key
    (E : Env) (ip crawler_key : string) (host : option string) :
  dict_get CRAWLER_RDNS_PATTERNS crawler_key = None ->
  verify_rdns E ip crawler_key <> Ret (true, host).
Proof.
  intros Hnone Htrue.
  apply verify_rdns_true_inv in Htrue as (h & results & _ & _ & Hm & _).
  unfold rdns_patterns in Hm. rewrite Hnone in Hm. discriminate Hm.
Qed.

Lemma verify_rdns_unknown_key_witness :
  verify_rdns (Sample.honest 0) Sample.googlebot_ip "google-special-crawlers"
  <> Ret (true, Some Sample.googlebot_host).
Proof.
  apply (verify_rdns_unknown_key (Sample.honest 0) Sample.googlebot_ip
           "google-special-crawlers" (Some Sample.googlebot_host)).
  reflexivity.
Defined.

(** ** Downloading the range list *)

Lemma collect_prefixes_non_object (entries ranges : list value) :
  forallb is_object entries = false ->
  collect_prefixes entries ranges = Raise AttributeError.
Proof.
  revert ranges. induction entries as [|entry rest IH]; intros ranges; simpl;
    [discriminate|].
  destruct entry; simpl; try reflexivity.
  intros Hrest.
  destruct (truthy (default JNull (dict_get members "ipv4Prefix"))); simpl;
    now apply IH.
Qed.

Lemma collect_prefixes_truthy (entries ranges result : list value) :
  Forall (fun cidr => truthy cidr = true) ranges ->
  collect_prefixes entries ranges = Ret result ->
  Forall (fun cidr => truthy cidr = true) result.
Proof.
  revert ranges. induction entries as [|entry rest IH]; intros ranges Hacc; simpl.
  - now intros [= <-].
  - destruct entry; simpl; try discriminate.
    set (v4 := default JNull (dict_get members "ipv4Prefix")).
    set (v6 := default JNull (dict_get members "ipv6Prefix")).
    destruct (truthy v4) eqn:H4; simpl.
    + rewrite H4. apply IH. apply Forall_app. split; [assumption|].
      now constructor.
    + destruct (truthy v6) eqn:H6; apply IH; [|assumption].
      apply Forall_app. split; [assumption|]. now constructor.
Qed.

(** X9. When the list under [prefixes] holds an entry that is not a
    dictionary, the download fails as a whole, whatever the other
    entries are: [fetch_ip_ranges] returns the empty list and stores
    nothing. *)
Theorem non_object_entry_fails_fetch
    (E : Env) (crawler_key source_url : string) (st : State)
    (members : list (string * value)) (entries : list value) :
  cached_ranges (time E) (_ip_range_cache st) crawler_key = None ->
  range_source crawler_key = Some source_url ->
  str_truthy source_url = true ->
  urlopen_json E source_url = Ret (JObj members) ->
  dict_get members "prefixes" = Some (JArr entries) ->
  forallb is_object entries = false ->
  fetch_ip_ranges E crawler_key st = (Ret [], record_call source_url st).
Proof.
  intros Hmiss Hsrc Hurl Hdoc Hprefixes Hbad.
  apply fetch_ip_ranges_failure with AttributeError; try assumption.
  unfold download_ranges. rewrite Hdoc. simpl. rewrite Hprefixes. simpl.
  now apply collect_prefixes_non_object.
Qed.

Lemma non_object_entry_fails_fetch_witness :
  fetch_ip_ranges
    {| time := 0; resolve_ptr := fun _ => Raise herror;
       resolve_addrs := fun _ => Raise gaierror;
       urlopen_json := fun _ =>
         Ret (JObj [("prefixes",
                     JArr [JObj [("ipv4Prefix", JStr "66.249.64.0/19")];
                           JStr "66.249.64.0/19"])]) |}
    "googlebot" Sample.empty_state
  = (Ret [], record_call Sample.googlebot_url Sample.empty_state).
Proof.
  apply (non_object_entry_fails_fetch _ "googlebot" Sample.googlebot_url
           Sample.empty_state
           [("prefixes",
             JArr [JObj [("ipv4Prefix", JStr "66.249.64.0/19")];
                   JStr "66.249.64.0/19"])]
           [JObj [("ipv4Prefix", JStr "66.249.64.0/19")]; JStr "66.249.64.0/19"]);
    reflexivity.
Defined.

(** X10. Every value of a list that a download returns is truthy: no
    [None], no empty string, no zero finds its way into the ranges. *)
Theorem download_ranges_truthy
    (E : Env) (source_url : string) (ranges : list value) :
  download_ranges E source_url = Ret ranges ->
  Forall (fun cidr => truthy cidr = true) ranges.
Proof.
  unfold download_ranges.
  destruct (urlopen_json E source_url) as [data|e]; simpl; [|discriminate].
  destruct (get_default data "prefixes" (JArr [])) as [prefixes|e]; simpl;
    [|discriminate].
  destruct (iterate prefixes) as [entries|e]; simpl; [|discriminate].
  apply collect_prefixes_truthy. constructor.
Qed.

Lemma download_ranges_truthy_witness :
  Forall (fun cidr => truthy cidr = true) Sample.published_ranges.
Proof.
  apply (download_ranges_truthy (Sample.honest 0) Sample.googlebot_url).
  reflexivity.
Defined.

(** ** What a fetch changes *)

Lemma fetch_ip_ranges_cases (E : Env) (crawler_key : string) (st : State) :
  (exists ranges, fetch_ip_ranges E crawler_key st = (Ret ranges, st)) \/
  (exists source_url,
     range_source crawler_key = Some source_url /\
     str_truthy source_url = true /\
     (fetch_ip_ranges E crawler_key st = (Ret [], record_call source_url st) \/
      exists ranges,
        fetch_ip_ranges E crawler_key st
        = (Ret ranges,
           store crawler_key (ranges, time E) (record_call source_url st)))).
Proof.
  unfold fetch_ip_ranges.
  destruct (cached_ranges _ _ _); [eauto|].
  destruct (range_source crawler_key) as [url|]; [|eauto].
  destruct (str_truthy url) eqn:Hurl; simpl; [|eauto].
  right. exists url. split; [reflexivity|]. split; [assumption|].
  destruct (download_ranges E url); eauto.
Qed.

(** X11. A call of [fetch_ip_ranges] leaves the cache entries of all
    other keys alone, makes at most one [urlopen] call, to the source
    of its key, and either keeps the entry of its key or replaces it by
    the list it returns, stamped with the time of the call. *)
Theorem fetch_ip_ranges_frame (E : Env) (crawler_key : string) (st : State) :
  let st' := snd (fetch_ip_ranges E crawler_key st) in
  (forall other,
     other <> crawler_key ->
     _ip_range_cache st' !! other = _ip_range_cache st !! other) /\
  (urlopen_calls st' = urlopen_calls st \/
   exists source_url,
     range_source crawler_key = Some source_url /\
     urlopen_calls st' = urlopen_calls st ++ [source_url]) /\
  (_ip_range_cache st' !! crawler_key = _ip_range_cache st !! crawler_key \/
   exists ranges,
     fst (fetch_ip_ranges E crawler_key st) = Ret ranges /\
     _ip_range_cache st' !! crawler_key = Some (ranges, time E)).
Proof.
  destruct (fetch_ip_ranges_cases E crawler_key st)
    as [(ranges & ->)|(url & Hsrc & Hurl & [->|(ranges & ->)])]; simpl.
  - auto.
  - split; [auto|]. split; [right; eauto|auto].
  - split; [|split].
    + intros other Hne. now apply lookup_insert_ne.
    + right. eauto.
    + right. exists ranges. split; [reflexivity|]. apply lookup_insert_eq.
Qed.

Lemma fetch_ip_ranges_frame_witness :
  _ip_range_cache
    (snd (fetch_ip_ranges (Sample.honest 20000) "googlebot"
            {| _ip_range_cache := {[ "bingbot" := ([JStr "10.0.0.0/8"], 0%float) ]};
               urlopen_calls := [] |}))
    !! "bingbot"
  = Some ([JStr "10.0.0.0/8"], 0%float).
Proof.
  rewrite (proj1 (fetch_ip_ranges_frame (Sample.honest 20000) "googlebot"
                    {| _ip_range_cache := {[ "bingbot" := ([JStr "10.0.0.0/8"], 0%float) ]};
                       urlopen_calls := [] |}) "bingbot").
  - reflexivity.
  - discriminate.
Defined.

(** ** The state across a full verification *)

Lemma cache_sourced_fetch (E : Env) (crawler_key : string) (st : State) :
  cache_sourced st -> cache_sourced (snd (fetch_ip_ranges E crawler_key st)).
Proof.
  intros Hinv.
  destruct (fetch_ip_ranges_cases E crawler_key st)
    as [(ranges & ->)|(url & Hsrc & Hurl & [->|(ranges & ->)])]; simpl.
  - exact Hinv.
  - exact Hinv.
  - intros key entry. simpl.
    destruct (decide (crawler_key = key)) as [<-|Hne].
    + intros _. now rewrite Hsrc.
    + rewrite lookup_insert_ne by assumption. apply Hinv.
Qed.

(** Without a source and without a cache entry the fetch is the empty
    list, and nothing happens. *)
Lemma fetch_ip_ranges_unsourced (E : Env) (crawler_key : string) (st : State) :
  cache_sourced st ->
  opt_truthy (range_source crawler_key) = false ->
  fetch_ip_ranges E crawler_key st = (Ret [], st).
Proof.
  intros Hinv Hnone. unfold fetch_ip_ranges, cached_ranges.
  destruct (_ip_range_cache st !! crawler_key) as [entry|] eqn:Hget.
  - apply Hinv in Hget. congruence.
  - destruct (range_source crawler_key) as [url|]; [|reflexivity].
    simpl in Hnone. now rewrite Hnone.
Qed.

Section WholeCall.
Context {L : ipaddress.Lib}.

Lemma verify_ip_range_state (E : Env) (ip crawler_key : string) (st : State) :
  snd (verify_ip_range E ip crawler_key st) = snd (fetch_ip_ranges E crawler_key st).
Proof.
  unfold verify_ip_range, bind.
  destruct (fetch_ip_ranges_returns E crawler_key st) as (ranges & st' & ->).
  destruct ranges; [reflexivity|].
  destruct (ipaddress.ip_address ip); reflexivity.
Qed.

(** The state after [is_verified_crawler] is the state before, or the
    state after the fetch for the claimed crawler. *)
Lemma is_verified_crawler_state
    (E : Env) (ip user_agent : string) (require_both_checks : bool) (st : State) :
  snd (is_verified_crawler E ip user_agent require_both_checks st) = st \/
  exists key,
    extract_crawler_identity user_agent = Some key /\
    snd (is_verified_crawler E ip user_agent require_both_checks st)
    = snd (fetch_ip_ranges E key st).
Proof.
  destruct (extract_crawler_identity user_agent) as [key|] eqn:Hkey.
  - destruct (verify_rdns E ip key) as [[dns host]|e] eqn:Hdns.
    + right. exists key. split; [reflexivity|].
      destruct (is_verified_crawler_classified
                  E ip user_agent require_both_checks st key dns host Hkey Hdns)
        as (rng & st' & Hrng & ->).
      rewrite <- verify_ip_range_state with (ip := ip). now rewrite Hrng.
    + left. unfold is_verified_crawler. rewrite Hkey.
      rewrite (classified_truthy _ _ Hkey). simpl.
      unfold bind, lift. now rewrite Hdns.
  - left. unfold is_verified_crawler. now rewrite Hkey.
Qed.

(** X12. Every key of the cache has a range source: this holds of the
    empty cache, and [is_verified_crawler] keeps it. *)
Theorem cache_sourced_invariant :
  cache_sourced Sample.empty_state /\
  forall E ip user_agent require_both_checks st,
    cache_sourced st ->
    cache_sourced (snd (is_verified_crawler E ip user_agent require_both_checks st)).
Proof.
  split.
  - intros key entry. simpl. rewrite lookup_empty. discriminate.
  - intros E ip user_agent require_both_checks st Hinv.
    destruct (is_verified_crawler_state E ip user_agent require_both_checks st)
      as [->|(key & _ & ->)]; [exact Hinv|].
    now apply cache_sourced_fetch.
Qed.

(** X13. For a classified crawler without a range source, from a state
    in which every cache key has one: when the DNS check comes back,
    [is_verified_crawler] returns with the range check [False] and the
    DNS check as its verdict under either policy, and the state, the
    log of [urlopen] calls included, is as before. *)
Theorem rangeless_identity_dns_only
    (E : Env) (ip user_agent key : string) (require_both_checks : bool)
    (st : State) (dns : bool) (host : option string) :
  cache_sourced st ->
  extract_crawler_identity user_agent = Some key ->
  opt_truthy (range_source key) = false ->
  verify_rdns E ip key = Ret (dns, host) ->
  exists r,
    is_verified_crawler E ip user_agent require_both_checks st = (Ret r, st) /\
    rdns_verified r = dns /\
    ip_range_verified r = false /\
    is_legitimate r = dns.
Proof.
  intros Hinv Hkey Hnone Hdns.
  destruct (is_verified_crawler_classified
              E ip user_agent require_both_checks st key dns host Hkey Hdns)
    as (rng & st' & Hrng & Hres).
  unfold verify_ip_range, bind in Hrng.
  rewrite (fetch_ip_ranges_unsourced E key st Hinv Hnone) in Hrng.
  injection Hrng as <- <-.
  eexists. split; [exact Hres|]. simpl.
  split; [reflexivity|]. split; [reflexivity|].
  unfold final_verdict. rewrite Hnone.
  destruct require_both_checks; simpl; [reflexivity|apply orb_false_r].
Qed.

End WholeCall.

Lemma cache_sourced_invariant_witness :
  cache_sourced
    (snd (is_verified_crawler (L := Ipv4.lib) (Sample.honest 0)
            Sample.googlebot_ip Sample.googlebot_ua false Sample.empty_state)).
Proof.
  apply (proj2 (cache_sourced_invariant (L := Ipv4.lib))).
  intros key entry. simpl. rewrite lookup_empty. discriminate.
Defined.

Lemma rangeless_identity_dns_only_witness :
  exists r,
    is_verified_crawler (L := Ipv4.lib) (Sample.bing 0)
      Sample.bingbot_ip Sample.bingbot_ua true Sample.empty_state
    = (Ret r, Sample.empty_state) /\
    rdns_verified r = true /\
    ip_range_verified r = false /\
    is_legitimate r = true.
Proof.
  apply (rangeless_identity_dns_only (L := Ipv4.lib) (Sample.bing 0)
           Sample.bingbot_ip Sample.bingbot_ua "bingbot" true Sample.empty_state
           true (Some Sample.bingbot_host)).
  - intros key entry. simpl. rewrite lookup_empty. discriminate.
  - reflexivity.
  - reflexivity.
  - reflexivity.
Defined.

(** ** What a verdict guarantees *)

Section Guarantees.
Context {L : ipaddress.Lib}.

(** Every result is the early result for an unclassified agent or the
    result for a classified one. *)
Lemma is_verified_crawler_result
    (E : Env) (ip user_agent : string) (require_both_checks : bool)
    (st st' : State) (r : CrawlerVerificationResult) :
  is_verified_crawler E ip user_agent require_both_checks st = (Ret r, st') ->
  (extract_crawler_identity user_agent = None /\
   claimed_crawler r = None /\ rdns_verified r = false /\
   ip_range_verified r = false /\ is_legitimate r = false) \/
  (exists key,
     extract_crawler_identity user_agent = Some key /\
     claimed_crawler r = Some key /\
     verify_rdns E ip key = Ret (rdns_verified r, rdns_hostname r) /\
     verify_ip_range E ip key st = (Ret (ip_range_verified r), st') /\
     is_legitimate r
     = fst (final_verdict require_both_checks key
              (rdns_verified r) (ip_range_verified r))).
Proof.
  intros Hcall.
  destruct (extract_crawler_identity user_agent) as [key|] eqn:Hkey.
  - right. exists key. split; [reflexivity|].
    destruct (is_verified_crawler_inv _ _ _ _ _ _ _ _ Hkey Hcall)
      as (Hdns & Hrng & Hleg & _).
    split; [|auto].
    destruct (is_verified_crawler_classified
                E ip user_agent require_both_checks st key _ _ Hkey Hdns)
      as (rng & st1 & _ & Hres).
    rewrite Hres in Hcall. now injection Hcall as <- _.
  - left. unfold is_verified_crawler in Hcall. rewrite Hkey in Hcall.
    injection Hcall as <- _. auto.
Qed.

(** X14. A result whose verdict is [True] names a crawler and has
    passed at least one of the two checks; when both checks are required
    and the crawler has a range source, it has passed both. *)
Theorem legitimate_needs_a_check
    (E : Env) (ip user_agent : string) (require_both_checks : bool)
    (st st' : State) (r : CrawlerVerificationResult) :
  is_verified_crawler E ip user_agent require_both_checks st = (Ret r, st') ->
  is_legitimate r = true ->
  exists key,
    claimed_crawler r = Some key /\
    extract_crawler_identity user_agent = Some key /\
    (rdns_verified r = true \/ ip_range_verified r = true) /\
    (require_both_checks = true ->
     opt_truthy (range_source key) = true ->
     rdns_verified r = true /\ ip_range_verified r = true).
Proof.
  intros Hcall Hleg.
  destruct (is_verified_crawler_result _ _ _ _ _ _ _ Hcall)
    as [(_ & _ & _ & _ & Hno)|(key & Hkey & Hclaimed & _ & _ & Hverdict)];
    [congruence|].
  exists key. split; [assumption|]. split; [assumption|].
  rewrite Hverdict in Hleg. unfold final_verdict in Hleg. split.
  - destruct require_both_checks, (opt_truthy (range_source key)),
             (rdns_verified r), (ip_range_verified r);
      simpl in Hleg; auto; discriminate.
  - intros -> Hsrc. rewrite Hsrc in Hleg. simpl in Hleg.
    now apply andb_true_iff in Hleg.
Qed.

(** X15. A result whose DNS flag is [True] carries the name that the
    reverse lookup returned; that name ends with a suffix listed for the
    claimed crawler, and its forward lookup returned the source
    address. *)
Theorem rdns_verified_closes_the_loop
    (E : Env) (ip user_agent : string) (require_both_checks : bool)
    (st st' : State) (r : CrawlerVerificationResult) :
  is_verified_crawler E ip user_agent require_both_checks st = (Ret r, st') ->
  rdns_verified r = true ->
  exists key hostname suffix results,
    claimed_crawler r = Some key /\
    rdns_hostname r = Some hostname /\
    socket.gethostbyaddr E ip = Ret hostname /\
    In (key, suffix) ACCEPTED_SUFFIXES /\
    ends_with_ci hostname suffix /\
    socket.getaddrinfo E hostname = Ret results /\
    In ip results.
Proof.
  intros Hcall Htrue.
  destruct (is_verified_crawler_result _ _ _ _ _ _ _ Hcall)
    as [(_ & _ & Hno & _)|(key & _ & Hclaimed & Hdns & _)];
    [congruence|].
  rewrite Htrue in Hdns.
  apply verify_rdns_true_inv in Hdns
    as (hostname & results & Hhost & Hptr & Hmatch & Hfwd & Hin).
  destruct (hostname_matches_suffixes key hostname Hmatch)
    as (suffix & Hsfx & Hends).
  exists key, hostname, suffix, results. auto 10.
Qed.

(** X16. What passes when both checks are required passes under the
    default policy too: in the same world and state the two calls record
    the same checks and leave the same state, and a [True] verdict of
    the strict call is a [True] verdict of the default call. *)
Theorem strict_implies_default
    (E : Env) (ip user_agent : string) (st st' : State)
    (strict : CrawlerVerificationResult) :
  is_verified_crawler E ip user_agent true st = (Ret strict, st') ->
  exists default,
    is_verified_crawler E ip user_agent false st = (Ret default, st') /\
    claimed_crawler default = claimed_crawler strict /\
    rdns_hostname default = rdns_hostname strict /\
    rdns_verified default = rdns_verified strict /\
    ip_range_verified default = ip_range_verified strict /\
    (is_legitimate strict = true -> is_legitimate default = true).
Proof.
  intros Hcall.
  destruct (is_verified_crawler_result _ _ _ _ _ _ _ Hcall)
    as [(Hkey & Hc & Hd & Hr & Hl)|(key & Hkey & Hclaimed & Hdns & Hrng & Hverdict)].
  - unfold is_verified_crawler in *. rewrite Hkey in *.
    injection Hcall as <- <-. eexists. split; [reflexivity|]. simpl. auto.
  - destruct (is_verified_crawler_classified
                E ip user_agent false st key _ _ Hkey Hdns)
      as (rng & st1 & Hrng1 & Hres).
    rewrite Hrng in Hrng1. injection Hrng1 as <- <-.
    eexists. split; [exact Hres|]. simpl.
    split; [now rewrite Hclaimed|]. split; [reflexivity|].
    split; [reflexivity|]. split; [reflexivity|].
    rewrite Hverdict. unfold final_verdict.
    destruct (opt_truthy (range_source key)),
             (rdns_verified strict), (ip_range_verified strict);
      simpl; auto.
Qed.

End Guarantees.

Section GuaranteeWitnesses.
Import Sample.
#[local] Existing Instance Ipv4.lib.

(** The result of the honest crawler's request, both checks passing. *)
Lemma legitimate_needs_a_check_witness :
  exists key,
    Some "googlebot" = Some key /\
    extract_crawler_identity googlebot_ua = Some key /\
    (true = true \/ true = true) /\
    (true = true ->
     opt_truthy (range_source key) = true -> true = true /\ true = true).
Proof.
  apply (legitimate_needs_a_check (honest 0) googlebot_ip googlebot_ua true
           empty_state
           (store "googlebot" (published_ranges, 0%float)
              (record_call googlebot_url empty_state))
           {| ip_address := googlebot_ip;
              user_agent := googlebot_ua;
              claimed_crawler := Some "googlebot";
              rdns_hostname := Some googlebot_host;
              rdns_verified := true;
              ip_range_verified := true;
              is_legitimate := true;
              reason := "Verified via rDNS and IP range" |}).
  - vm_compute. reflexivity.
  - reflexivity.
Defined.

Lemma rdns_verified_closes_the_loop_witness :
  exists key hostname suffix results,
    Some "googlebot" = Some key /\
    Some googlebot_host = Some hostname /\
    socket.gethostbyaddr (offline 0) googlebot_ip = Ret hostname /\
    In (key, suffix) ACCEPTED_SUFFIXES /\
    ends_with_ci hostname suffix /\
    socket.getaddrinfo (offline 0) hostname = Ret results /\
    In googlebot_ip results.
Proof.
  apply (rdns_verified_closes_the_loop (offline 0) googlebot_ip googlebot_ua false
           empty_state (record_call googlebot_url empty_state)
           {| ip_address := googlebot_ip;
              user_agent := googlebot_ua;
              claimed_crawler := Some "googlebot";
              rdns_hostname := Some googlebot_host;
              rdns_verified := true;
              ip_range_verified := false;
              is_legitimate := true;
              reason := "Verified via rDNS" |}).
  - vm_compute. reflexivity.
  - reflexivity.
Defined.

Lemma strict_implies_default_witness :
  exists default,
    is_verified_crawler (honest 0) googlebot_ip googlebot_ua false empty_state
    = (Ret default,
       store "googlebot" (published_ranges, 0%float)
         (record_call googlebot_url empty_state)) /\
    claimed_crawler default = Some "googlebot" /\
    rdns_hostname default = Some googlebot_host /\
    rdns_verified default = true /\
    ip_range_verified default = true /\
    (true = true -> is_legitimate default = true).
Proof.
  apply (strict_implies_default (honest 0) googlebot_ip googlebot_ua
           empty_state
           (store "googlebot" (published_ranges, 0%float)
              (record_call googlebot_url empty_state))
           {| ip_address := googlebot_ip;
              user_agent := googlebot_ua;
              claimed_crawler := Some "googlebot";
              rdns_hostname := Some googlebot_host;
              rdns_verified := true;
              ip_range_verified := true;
              is_legitimate := true;
              reason := "Verified via rDNS and IP range" |}).
  vm_compute. reflexivity.
Defined.

End GuaranteeWitnesses.

(** ** The network footprint of a verification *)

Section Footprint.
Context {L : ipaddress.Lib}.

(** X17. One call of [is_verified_crawler] makes at most one [urlopen]
    call, and only to the Googlebot range list: the list of the special
    crawlers is never fetched.  No cache entry other than Googlebot's
    changes. *)
Theorem is_verified_crawler_footprint
    (E : Env) (ip user_agent : string) (require_both_checks : bool) (st : State) :
  let st' := snd (is_verified_crawler E ip user_agent require_both_checks st) in
  (urlopen_calls st' = urlopen_calls st \/
   urlopen_calls st'
   = urlopen_calls st
     ++ ["https://developers.google.com/search/apis/ipranges/googlebot.json"]) /\
  (forall key,
     key <> "googlebot" ->
     _ip_range_cache st' !! key = _ip_range_cache st !! key).
Proof.
  destruct (is_verified_crawler_state E ip user_agent require_both_checks st)
    as [->|(key & Hkey & ->)]; simpl; [auto|].
  destruct (fetch_ip_ranges_cases E key st)
    as [(ranges & ->)|(url & Hsrc & Hurl & Hfetch)]; simpl; [auto|].
  pose proof (classified_range_source _ _ Hkey) as Hgoogle.
  rewrite Hsrc in Hgoogle. simpl in Hgoogle. rewrite Hurl in Hgoogle.
  symmetry in Hgoogle. apply String.eqb_eq in Hgoogle. subst key.
  injection Hsrc as <-.
  destruct Hfetch as [->|(ranges & ->)]; simpl.
  - auto.
  - split; [auto|]. intros key Hne. apply lookup_insert_ne. congruence.
Qed.

(** ** When a verification raises *)

Lemma verify_rdns_raises_iff (E : Env) (ip crawler_key : string) (e : exn) :
  verify_rdns E ip crawler_key = Raise e <->
  is_OSError e = false /\
  (socket.gethostbyaddr E ip = Raise e \/
   exists hostname,
     socket.gethostbyaddr E ip = Ret hostname /\
     hostname <> EmptyString /\
     hostname_matches (rdns_patterns crawler_key) hostname = true /\
     socket.getaddrinfo E hostname = Raise e).
Proof.
  unfold verify_rdns, reverse_dns_lookup. split.
  - destruct (socket.gethostbyaddr E ip) as [h|e'] eqn:Hptr; simpl.
    + destruct (str_truthy h) eqn:Ht; simpl; [|discriminate].
      destruct (hostname_matches (rdns_patterns crawler_key) h) eqn:Hm; simpl;
        [|discriminate].
      unfold forward_dns_lookup.
      destruct (socket.getaddrinfo E h) as [results|e'] eqn:Hfwd; simpl.
      * destruct (list_in ip (remove_dups results)); discriminate.
      * destruct (is_OSError e') eqn:He; simpl.
        -- destruct (list_in ip []); discriminate.
        -- intros [= <-]. split; [assumption|]. right. exists h.
           split; [reflexivity|]. split; [|auto].
           intros ->. discriminate Ht.
    + destruct (is_OSError e') eqn:He; simpl; [discriminate|].
      intros [= <-]. auto.
  - intros (He & [-> | (h & -> & Hne & Hm & Hfwd)]); simpl.
    + now rewrite He.
    + destruct (str_truthy h) eqn:Ht;
        [|apply str_truthy_false in Ht; contradiction].
      simpl. rewrite Hm. simpl. unfold forward_dns_lookup.
      rewrite Hfwd, He. reflexivity.
Qed.

(** X18. [is_verified_crawler] raises in two cases only, both for a
    classified agent and both with an exception that is no [OSError]:
    the reverse lookup raises it, or the reverse lookup returns a name
    that passes the suffix check and the forward lookup of that name
    raises it.  The state is then as it was: nothing was fetched. *)
Theorem is_verified_crawler_raises_iff
    (E : Env) (ip user_agent : string) (require_both_checks : bool)
    (st st' : State) (e : exn) :
  is_verified_crawler E ip user_agent require_both_checks st = (Raise e, st') <->
  st' = st /\
  is_OSError e = false /\
  exists key,
    extract_crawler_identity user_agent = Some key /\
    (socket.gethostbyaddr E ip = Raise e \/
     exists hostname,
       socket.gethostbyaddr E ip = Ret hostname /\
       hostname <> EmptyString /\
       hostname_matches (rdns_patterns key) hostname = true /\
       socket.getaddrinfo E hostname = Raise e).
Proof.
  split.
  - intros Hcall.
    destruct (extract_crawler_identity user_agent) as [key|] eqn:Hkey.
    + destruct (verify_rdns E ip key) as [[dns host]|e'] eqn:Hdns.
      * destruct (is_verified_crawler_classified
                    E ip user_agent require_both_checks st key dns host Hkey Hdns)
          as (rng & st1 & _ & Hres).
        rewrite Hres in Hcall. discriminate Hcall.
      * unfold is_verified_crawler in Hcall. rewrite Hkey in Hcall.
        rewrite (classified_truthy _ _ Hkey) in Hcall. simpl in Hcall.
        unfold bind, lift in Hcall. rewrite Hdns in Hcall.
        injection Hcall as <- <-. split; [reflexivity|].
        apply verify_rdns_raises_iff in Hdns as (He & Hwhere).
        split; [assumption|]. exists key. auto.
    + unfold is_verified_crawler in Hcall. rewrite Hkey in Hcall.
      discriminate Hcall.
  - intros (-> & He & key & Hkey & Hwhere).
    assert (Hdns : verify_rdns E ip key = Raise e)
      by (apply verify_rdns_raises_iff; auto).
    unfold is_verified_crawler. rewrite Hkey.
    rewrite (classified_truthy _ _ Hkey). simpl.
    unfold bind, lift. now rewrite Hdns.
Qed.

(** ** The scan of the ranges *)

(** X19. The answer of the scan depends on which entries the list
    holds, not on their order or on how often they occur. *)
Theorem scan_ranges_same_entries
    (ip_obj : ipaddress.address) (ranges ranges' : list value) :
  (forall cidr, In cidr ranges <-> In cidr ranges') ->
  scan_ranges ip_obj ranges = scan_ranges ip_obj ranges'.
Proof.
  intros Hsame.
  apply eq_true_iff_eq. rewrite !scan_ranges_true. split.
  - intros (c & n & Hc & Hrest). exists c, n. split; [now apply Hsame|exact Hrest].
  - intros (c & n & Hc & Hrest). exists c, n. split; [now apply Hsame|exact Hrest].
Qed.

End Footprint.

Lemma is_verified_crawler_footprint_witness :
  _ip_range_cache
    (snd (is_verified_crawler (L := Ipv4.lib) (Sample.honest 20000)
            Sample.googlebot_ip Sample.googlebot_ua false
            {| _ip_range_cache := {[ "bingbot" := ([JStr "10.0.0.0/8"], 0%float) ]};
               urlopen_calls := [] |}))
    !! "bingbot"
  = Some ([JStr "10.0.0.0/8"], 0%float).
Proof.
  rewrite (proj2 (is_verified_crawler_footprint (L := Ipv4.lib)
                    (Sample.honest 20000) Sample.googlebot_ip Sample.googlebot_ua
                    false
                    {| _ip_range_cache :=
                         {[ "bingbot" := ([JStr "10.0.0.0/8"], 0%float) ]};
                       urlopen_calls := [] |}) "bingbot").
  - reflexivity.
  - discriminate.
Defined.

(** A name with an empty label, returned by the reverse lookup, makes
    the forward lookup raise. *)
Lemma is_verified_crawler_raises_iff_witness :
  is_verified_crawler (L := Ipv4.lib)
    {| time := 0;
       resolve_ptr := fun _ => Ret "crawl..googlebot.com";
       resolve_addrs := fun _ => Ret [Sample.googlebot_ip];
       urlopen_json := fun _ => Ret Sample.published |}
    Sample.googlebot_ip Sample.googlebot_ua false Sample.empty_state
  = (Raise UnicodeError, Sample.empty_state).
Proof.
  apply (is_verified_crawler_raises_iff (L := Ipv4.lib)).
  split; [reflexivity|]. split; [reflexivity|].
  exists "googlebot". split; [reflexivity|].
  right. exists "crawl..googlebot.com".
  split; [reflexivity|]. split; [discriminate|]. split; reflexivity.
Defined.

Lemma scan_ranges_same_entries_witness :
  scan_ranges (L := Ipv4.lib) 1123631617%N
    [JStr "66.249.64.0/19"; JStr "not-a-network"]
  = scan_ranges (L := Ipv4.lib) 1123631617%N
      [JStr "not-a-network"; JStr "66.249.64.0/19"; JStr "not-a-network"].
Proof.
  apply (scan_ranges_same_entries (L := Ipv4.lib)).
  intros cidr. simpl. tauto.
Defined.

(** * The text watermark *)

Module FingerprintFacts.
Import Text Fingerprint.

(** ** Splitting and replacing *)

Lemma split_no_sep (sep : N) (a : pystr) :
  Forall (fun c => c <> sep) a -> split sep a = [a].
Proof.
  induction 1 as [|c a Hc _ IH]; simpl; [reflexivity|].
  apply N.eqb_neq in Hc. now rewrite Hc, IH.
Qed.

Lemma split_app_sep (sep : N) (a b : pystr) :
  Forall (fun c => c <> sep) a ->
  split sep (a ++ sep :: b) = a :: split sep b.
Proof.
  induction 1 as [|c a Hc _ IH]; simpl.
  - now rewrite N.eqb_refl.
  - apply N.eqb_neq in Hc. now rewrite Hc, IH.
Qed.

Lemma split_length (sep : N) (s : pystr) :
  length (split sep s) = S (count_occ N.eq_dec s sep).
Proof.
  induction s as [|c s IH]; simpl; [reflexivity|].
  destruct (N.eqb_spec c sep) as [->|Hne].
  - simpl. rewrite IH. now destruct (N.eq_dec sep sep).
  - destruct (N.eq_dec c sep); [contradiction|].
    destruct (split sep s); simpl in *; [discriminate|exact IH].
Qed.

Lemma replace_delete (ch : N) (s : pystr) :
  replace [ch] [] s = List.filter (fun c => negb (ch =? c)%N) s.
Proof.
  unfold replace. induction s as [|c s IH]; simpl; [reflexivity|].
  rewrite andb_true_r. destruct (ch =? c)%N; simpl; now rewrite IH.
Qed.

Lemma replace_char (ch new : N) (s : pystr) :
  replace [ch] [new] s = map (fun c => if (ch =? c)%N then new else c) s.
Proof.
  unfold replace. induction s as [|c s IH]; simpl; [reflexivity|].
  rewrite andb_true_r. destruct (ch =? c)%N; simpl; now rewrite IH.
Qed.

(** ** Eight digits for a code point below 256 *)

Lemma format_08b_byte (n : N) :
  (n < 256)%N ->
  length (format_08b n) = 8 /\
  binary_value (format_08b n) 0 = Some n /\
  forallb is_bit (format_08b n) = true.
Proof.
  intros Hn.
  assert (Hall :
    forallb (fun n => Nat.eqb (length (format_08b n)) 8
                      && match binary_value (format_08b n) 0 with
                         | Some m => (m =? n)%N
                         | None => false
                         end
                      && forallb is_bit (format_08b n))
            (map N.of_nat (seq 0 256)) = true) by (vm_compute; reflexivity).
  rewrite forallb_forall in Hall.
  specialize (Hall n).
  assert (Hin : In n (map N.of_nat (seq 0 256))).
  { apply in_map_iff. exists (N.to_nat n). split; [apply N2Nat.id|].
    apply in_seq. lia. }
  apply Hall in Hin.
  apply andb_true_iff in Hin as [Hin Hbits].
  apply andb_true_iff in Hin as [Hlen Hval].
  apply Nat.eqb_eq in Hlen.
  destruct (binary_value (format_08b n) 0) as [m|]; [|discriminate].
  apply N.eqb_eq in Hval. subst m. auto.
Qed.

Lemma chunks_app (c rest : pystr) (fuel : nat) :
  length c = 8 -> chunks (S fuel) (c ++ rest) = c :: chunks fuel rest.
Proof.
  intros Hlen. destruct c as [|d c']; [discriminate Hlen|].
  change (chunks (S fuel) ((d :: c') ++ rest))
    with (firstn 8 ((d :: c') ++ rest) :: chunks fuel (skipn 8 ((d :: c') ++ rest))).
  rewrite firstn_app, skipn_app, Hlen, Nat.sub_diag.
  rewrite firstn_all2 by lia. rewrite skipn_all2 by lia.
  simpl. now rewrite app_nil_r.
Qed.

Lemma chunks_text_to_bits (payload : pystr) (fuel : nat) :
  Forall (fun c => (c < 256)%N) payload ->
  length payload <= fuel ->
  chunks fuel (text_to_bits payload) = map format_08b payload.
Proof.
  intros Hbytes. revert fuel.
  induction Hbytes as [|c payload Hc _ IH]; intros fuel Hfuel.
  - destruct fuel; reflexivity.
  - destruct fuel as [|fuel]; [simpl in Hfuel; lia|].
    destruct (format_08b_byte c Hc) as (Hlen & _ & _).
    change (text_to_bits (c :: payload))
      with (format_08b c ++ text_to_bits payload).
    rewrite chunks_app by assumption.
    simpl map. f_equal. apply IH. simpl in Hfuel. lia.
Qed.

Lemma text_to_bits_length (payload : pystr) :
  Forall (fun c => (c < 256)%N) payload ->
  length (text_to_bits payload) = 8 * length payload.
Proof.
  induction 1 as [|c payload Hc _ IH]; [reflexivity|].
  unfold text_to_bits in *. simpl. rewrite length_app, IH.
  destruct (format_08b_byte c Hc) as (-> & _). lia.
Qed.

Lemma text_to_bits_bits (payload : pystr) :
  Forall (fun c => (c < 256)%N) payload ->
  forallb is_bit (text_to_bits payload) = true.
Proof.
  induction 1 as [|c payload Hc _ IH]; [reflexivity|].
  unfold text_to_bits in *. simpl. rewrite forallb_app, IH.
  destruct (format_08b_byte c Hc) as (_ & _ & ->). reflexivity.
Qed.

Section RoundTrip.
Variable int2_other : pystr -> Res Z.

Lemma chars_of_bytes (payload : pystr) :
  Forall (fun c => (c < 256)%N) payload ->
  chars_of int2_other (map format_08b payload) = Ret payload.
Proof.
  induction 1 as [|c payload Hc _ IH]; [reflexivity|].
  destruct (format_08b_byte c Hc) as (Hlen & Hval & _).
  simpl. rewrite Hlen. simpl. unfold int2. rewrite Hval.
  destruct (format_08b c) as [|d ds] eqn:Hfmt; [discriminate Hlen|].
  simpl. unfold chr.
  assert (Hrange : ((0 <=? Z.of_N c)%Z && (Z.of_N c <? 1114112)%Z) = true).
  { apply andb_true_iff. split; [apply Z.leb_le|apply Z.ltb_lt]; lia. }
  rewrite Hrange. simpl. rewrite IH. simpl. now rewrite N2Z.id.
Qed.

(** X20. The two directions of the bit coding undo each other on
    characters below 256: [bits_to_text(text_to_bits(text))] is
    [text]. *)
Theorem bits_to_text_text_to_bits (text : pystr) :
  Forall (fun c => (c < 256)%N) text ->
  bits_to_text int2_other (text_to_bits text) = Ret text.
Proof.
  intros Hbytes. unfold bits_to_text.
  rewrite chunks_text_to_bits; [now apply chars_of_bytes|assumption|].
  rewrite text_to_bits_length by assumption. lia.
Qed.

(** The invisible characters of a code word, read back as bits. *)
Lemma read_back (bits : pystr) :
  forallb is_bit bits = true ->
  flat_map (fun char =>
              if (char =? ZWS)%N then [zero]
              else if (char =? ZWNJ)%N then [one]
              else [])
           (map (fun bit => if (bit =? zero)%N then ZWS else ZWNJ) bits)
  = bits.
Proof.
  induction bits as [|b bits IH]; simpl; [reflexivity|].
  intros [Hb Hrest]%andb_true_iff. rewrite (IH Hrest).
  unfold is_bit in Hb. destruct (N.eqb_spec b zero) as [->|Hne]; simpl.
  - reflexivity.
  - simpl in Hb. apply N.eqb_eq in Hb. now subst b.
Qed.

Lemma code_word_no_separator (bits : pystr) :
  Forall (fun c => c <> SEPARATOR)
         (map (fun bit => if (bit =? zero)%N then ZWS else ZWNJ) bits).
Proof.
  apply Forall_map. apply Forall_forall. intros b _.
  destruct (b =? zero)%N; discriminate.
Qed.

(** A watermark between two texts is read back when the text before it
    has no separator character. *)
Lemma decode_embedded (before after payload : pystr) :
  payload <> [] ->
  Forall (fun c => (c < 256)%N) payload ->
  Forall (fun c => c <> SEPARATOR) before ->
  decode_fingerprint int2_other (before ++ encode_fingerprint payload ++ after)
  = Some payload.
Proof.
  intros Hne Hbytes Hbefore. unfold decode_fingerprint, encode_fingerprint.
  set (word := map (fun bit => if (bit =? zero)%N then ZWS else ZWNJ)
                   (text_to_bits payload)).
  assert (Hhas : existsb (N.eqb SEPARATOR)
                   (before ++ ([SEPARATOR] ++ word ++ [SEPARATOR]) ++ after) = true).
  { rewrite existsb_app. simpl. now rewrite orb_true_r. }
  rewrite Hhas. simpl negb. cbv iota.
  assert (Hsplit :
    split SEPARATOR (before ++ ([SEPARATOR] ++ word ++ [SEPARATOR]) ++ after)
    = before :: word :: split SEPARATOR after).
  { change (before ++ ([SEPARATOR] ++ word ++ [SEPARATOR]) ++ after)
      with (before ++ SEPARATOR :: (word ++ [SEPARATOR]) ++ after).
    rewrite split_app_sep by assumption.
    rewrite <- app_assoc. simpl.
    rewrite split_app_sep by apply code_word_no_separator. reflexivity. }
  rewrite Hsplit.
  assert (Hlen : Nat.ltb (length (before :: word :: split SEPARATOR after)) 3 = false).
  { simpl. rewrite split_length. reflexivity. }
  rewrite Hlen. simpl nth. unfold word.
  rewrite read_back by now apply text_to_bits_bits.
  unfold bits_to_text.
  rewrite chunks_text_to_bits;
    [|assumption|rewrite text_to_bits_length by assumption; lia].
  rewrite chars_of_bytes by assumption.
  destruct (text_to_bits payload) as [|b bits] eqn:Hbits; [|reflexivity].
  apply (f_equal (@length N)) in Hbits.
  rewrite text_to_bits_length in Hbits by assumption.
  destruct payload; [contradiction|discriminate Hbits].
Qed.

End RoundTrip.

End FingerprintFacts.

Module WatermarkProperties.
Import Text Fingerprint FingerprintFacts.

Lemma inject_fingerprint_splits (text fingerprint : pystr) :
  exists before after,
    text = before ++ after /\
    inject_fingerprint text fingerprint = before ++ fingerprint ++ after.
Proof.
  unfold inject_fingerprint.
  destruct (match find (of_string ". ") text with
            | Some i => Some i
            | None => find [10%N] text
            end) as [i|].
  - exists (firstn (i + 2) text), (skipn (i + 2) text).
    split; [now rewrite firstn_skipn|reflexivity].
  - exists [], text. split; reflexivity.
Qed.

Lemma strip_zero_width_filter (text : pystr) :
  strip_zero_width text = List.filter (fun c => negb (is_zero_width c)) text.
Proof.
  unfold strip_zero_width, is_zero_width, ZWS, ZWNJ, SEPARATOR.
  simpl fold_left. rewrite !replace_delete.
  induction text as [|c text IH]; [reflexivity|].
  destruct (N.eqb_spec 8203 c) as [<-|H1]; [exact IH|].
  destruct (N.eqb_spec 8204 c) as [<-|H2]; [exact IH|].
  destruct (N.eqb_spec 8205 c) as [<-|H3]; [exact IH|].
  cbn [List.filter].
  rewrite (proj2 (N.eqb_neq 8203 c) H1). cbn [negb List.filter].
  rewrite (proj2 (N.eqb_neq 8204 c) H2). cbn [negb List.filter].
  rewrite (proj2 (N.eqb_neq 8205 c) H3). cbn [negb].
  rewrite (N.eqb_sym c 8203), (N.eqb_sym c 8204), (N.eqb_sym c 8205).
  rewrite (proj2 (N.eqb_neq 8203 c) H1), (proj2 (N.eqb_neq 8204 c) H2),
          (proj2 (N.eqb_neq 8205 c) H3).
  cbn [orb negb]. now rewrite IH.
Qed.

Lemma encode_fingerprint_zero_width (payload : pystr) :
  forallb is_zero_width (encode_fingerprint payload) = true.
Proof.
  unfold encode_fingerprint. rewrite !forallb_app. simpl.
  rewrite andb_true_r. apply forallb_forall. intros c Hin.
  apply in_map_iff in Hin as (b & <- & _).
  destruct (b =? zero)%N; reflexivity.
Qed.

Lemma filter_none (f : N -> bool) (s : pystr) :
  forallb f s = true -> List.filter (fun c => negb (f c)) s = [].
Proof.
  induction s as [|c s IH]; simpl; [reflexivity|].
  intros [-> Hrest]%andb_true_iff. simpl. auto.
Qed.

Lemma filter_all (f : N -> bool) (s : pystr) :
  forallb (fun c => negb (f c)) s = true ->
  List.filter (fun c => negb (f c)) s = s.
Proof.
  induction s as [|c s IH]; simpl; [reflexivity|].
  intros [-> Hrest]%andb_true_iff. now rewrite IH.
Qed.

Section Watermark.
Variable int2_other : pystr -> Res Z.

(** X21. A payload that is not empty and whose characters are below 256
    is read back from its code word: [decode_fingerprint] of
    [encode_fingerprint(payload)] is the payload.  The code word of the
    empty payload reads back as [None]. *)
Theorem decode_encode (payload : pystr) :
  (payload <> [] ->
   Forall (fun c => (c < 256)%N) payload ->
   decode_fingerprint int2_other (encode_fingerprint payload) = Some payload) /\
  decode_fingerprint int2_other (encode_fingerprint []) = None.
Proof.
  split; [|reflexivity].
  intros Hne Hbytes.
  rewrite <- (app_nil_r (encode_fingerprint payload)).
  apply (decode_embedded int2_other [] [] payload Hne Hbytes). constructor.
Qed.

(** X22. The watermark survives the injection: when the article text
    has no zero-width joiner of its own, [decode_fingerprint] reads the
    payload back from [inject_fingerprint(text, encode_fingerprint(payload))],
    wherever the injection point falls. *)
Theorem decode_injected (text payload : pystr) :
  payload <> [] ->
  Forall (fun c => (c < 256)%N) payload ->
  Forall (fun c => c <> SEPARATOR) text ->
  decode_fingerprint int2_other
    (inject_fingerprint text (encode_fingerprint payload))
  = Some payload.
Proof.
  intros Hne Hbytes Htext.
  destruct (inject_fingerprint_splits text (encode_fingerprint payload))
    as (before & after & -> & ->).
  apply decode_embedded; try assumption.
  now apply Forall_app in Htext as [Hbefore _].
Qed.

(** X23. Stripping the zero-width characters undoes the injection of a
    code word: the stripped watermarked text is the stripped original,
    and the original itself when it has no zero-width character. *)
Theorem strip_injected (text payload : pystr) :
  strip_zero_width (inject_fingerprint text (encode_fingerprint payload))
  = strip_zero_width text /\
  (forallb (fun c => negb (is_zero_width c)) text = true ->
   strip_zero_width (inject_fingerprint text (encode_fingerprint payload)) = text).
Proof.
  assert (Hstrip :
    strip_zero_width (inject_fingerprint text (encode_fingerprint payload))
    = strip_zero_width text).
  { destruct (inject_fingerprint_splits text (encode_fingerprint payload))
      as (before & after & -> & ->).
    rewrite !strip_zero_width_filter, !List.filter_app.
    rewrite (filter_none is_zero_width (encode_fingerprint payload))
      by apply encode_fingerprint_zero_width.
    reflexivity. }
  split; [exact Hstrip|].
  intros Hclean. rewrite Hstrip, strip_zero_width_filter.
  now apply filter_all.
Qed.

(** X24. A text with fewer than two zero-width joiners has no
    watermark to read: [decode_fingerprint] returns [None]. *)
Theorem decode_needs_two_separators (text : pystr) :
  count_occ N.eq_dec text SEPARATOR < 2 ->
  decode_fingerprint int2_other text = None.
Proof.
  intros Hcount. unfold decode_fingerprint.
  destruct (existsb (N.eqb SEPARATOR) text); [|reflexivity].
  simpl. rewrite split_length.
  destruct (Nat.ltb_spec (S (count_occ N.eq_dec text SEPARATOR)) 3);
    [reflexivity|lia].
Qed.

End Watermark.

(** The payload that [create_payload] would build for an author "anna"
    and a hash starting with "3f2a". *)
Lemma decode_encode_witness :
  decode_fingerprint (fun _ => Raise ValueError)
    (encode_fingerprint (of_string "anna3f2a"))
  = Some (of_string "anna3f2a").
Proof.
  apply (proj1 (decode_encode (fun _ => Raise ValueError) (of_string "anna3f2a"))).
  - discriminate.
  - repeat constructor.
Defined.

Lemma decode_injected_witness :
  decode_fingerprint (fun _ => Raise ValueError)
    (inject_fingerprint (of_string "First sentence. Second sentence.")
       (encode_fingerprint (of_string "anna3f2a")))
  = Some (of_string "anna3f2a").
Proof.
  apply (decode_injected (fun _ => Raise ValueError)
           (of_string "First sentence. Second sentence.") (of_string "anna3f2a")).
  - discriminate.
  - repeat constructor.
  - repeat constructor; discriminate.
Defined.

Lemma strip_injected_witness :
  strip_zero_width
    (inject_fingerprint (of_string "First sentence. Second sentence.")
       (encode_fingerprint (of_string "anna3f2a")))
  = of_string "First sentence. Second sentence.".
Proof.
  apply (proj2 (strip_injected (of_string "First sentence. Second sentence.")
                  (of_string "anna3f2a"))).
  reflexivity.
Defined.

Lemma decode_needs_two_separators_witness :
  decode_fingerprint (fun _ => Raise ValueError)
    ([SEPARATOR] ++ of_string "cut off before the second joiner")
  = None.
Proof.
  apply (decode_needs_two_separators (fun _ => Raise ValueError)).
  vm_compute. lia.
Defined.

Lemma bits_to_text_text_to_bits_witness :
  bits_to_text (fun _ => Raise ValueError) (text_to_bits (of_string "anna3f2a"))
  = Ret (of_string "anna3f2a").
Proof.
  apply (bits_to_text_text_to_bits (fun _ => Raise ValueError)).
  repeat constructor.
Defined.

(** A character above 255 takes more than eight digits, and the payload
    is not read back. *)
Example wide_character_lost :
  decode_fingerprint (fun _ => Raise ValueError) (encode_fingerprint [20013%N])
  = Some [156%N].
Proof. vm_compute. reflexivity. Qed.

End WatermarkProperties.

(** * File names for the evidence *)

Module EvidenceProperties.
Import Text Evidence.

(** X25. A name that [safe_filename] returns has at most 80 characters
    and holds neither a slash nor a colon. *)
Theorem safe_filename_safe (url : pystr) :
  length (safe_filename url) <= 80 /\
  Forall (fun c => c <> 47%N /\ c <> 58%N) (safe_filename url).
Proof.
  unfold safe_filename. split; [apply firstn_le_length|].
  set (stripped := replace (of_string "http://") []
                     (replace (of_string "https://") [] url)).
  change (of_string ":") with [58%N]. change (of_string "/") with [47%N].
  change (of_string "_") with [95%N].
  rewrite !FingerprintFacts.replace_char.
  apply List.Forall_forall. intros c Hin.
  match type of Hin with
  | In _ (firstn ?n ?l) =>
      assert (Hin' : In c (firstn n l ++ skipn n l))
        by (apply in_or_app; left; exact Hin);
      rewrite firstn_skipn in Hin'; clear Hin; rename Hin' into Hin
  end.
  apply in_map_iff in Hin as (c1 & <- & Hin).
  apply in_map_iff in Hin as (c0 & <- & _).
  destruct (N.eqb_spec 47 c0) as [<-|H47]; [split; discriminate|].
  destruct (N.eqb_spec 58 c0) as [<-|H58]; [split; discriminate|].
  split; intros Heq; [apply H47|apply H58]; now rewrite Heq.
Qed.

Example safe_filename_example :
  safe_filename (of_string "https://freedium.cfd/https://medium.com/@a/b-1:2")
  = of_string "freedium.cfd_medium.com_@a_b-1_2".
Proof. vm_compute. reflexivity. Qed.

End EvidenceProperties.
